(** * search.py: web search, page extraction and deep research

    A shallow embedding of [src/search.py] and the properties of its three
    tools ([web_search], [fetch_and_parse_webpage], [deep_research]).

    Conventions of the embedding:
    - a Python [str] is a [string]; one [ascii] stands for one character, so
      [len] counts characters;
    - a Python [int] is a [Z]; [len] and slice bounds are in [Z];
    - a Python [dict] with string keys is a [gmap string _];
    - the network and the HTML parser are collaborators outside the file:
      they are Section variables ([http_post], [http_get], [html_parser]),
      an exception raised by the HTTP client being the [HttpError] outcome;
    - the parsed page is a tree of [node]s as BeautifulSoup builds it, and
      [find_all], [get_text] and [extract] are its documented operations. *)

From Stdlib Require Import ZArith Ascii String DecimalString Permutation.
From stdpp Require Import base list strings gmap.

Open Scope Z_scope.

(** ** Python strings *)

Module Py.

(** The newline character, written ["\n"] in the source. *)
Definition nl : string := String "010"%char "".

Definition len (s : string) : Z := Z.of_nat (String.length s).

(** [str(n)] and [f"{n}"] for an [int]. *)
Definition str_of_int (n : Z) : string := NilEmpty.string_of_int (Z.to_int n).

(** [sep.join(l)] *)
Fixpoint join (sep : string) (l : list string) : string :=
  match l with
  | [] => ""
  | [x] => x
  | x :: l' => x +:+ sep +:+ join sep l'
  end.

Fixpoint str_take (n : nat) (s : string) : string :=
  match n, s with
  | S n', String c s' => String c (str_take n' s')
  | _, _ => ""
  end.

(** [s[:k]]: a negative bound counts from the end. *)
Definition str_slice_to (s : string) (k : Z) : string :=
  if 0 <=? k then str_take (Z.to_nat k) s
  else str_take (String.length s - Z.to_nat (- k)) s.

(** [l[:k]] on a list. *)
Definition slice_to {A} (l : list A) (k : Z) : list A :=
  if 0 <=? k then take (Z.to_nat k) l
  else take (length l - Z.to_nat (- k)) l.

(** [s] ends with [suffix]. *)
Definition endswith (s suffix : string) : Prop := ∃ body, s = body +:+ suffix.

(** [s.startswith(p)] *)
Definition startswith (s p : string) : bool := String.prefix p s.

(** [sub in s] *)
Fixpoint contains (sub s : string) : bool :=
  String.prefix sub s ||
  match s with
  | "" => false
  | String _ s' => contains sub s'
  end.

Definition lower_char (c : ascii) : ascii :=
  let n := nat_of_ascii c in
  if ((65 <=? n) && (n <=? 90))%nat then ascii_of_nat (n + 32) else c.

Definition upper_char (c : ascii) : ascii :=
  let n := nat_of_ascii c in
  if ((97 <=? n) && (n <=? 122))%nat then ascii_of_nat (n - 32) else c.

Fixpoint str_map (f : ascii → ascii) (s : string) : string :=
  match s with
  | "" => ""
  | String c s' => String (f c) (str_map f s')
  end.

Definition lower : string → string := str_map lower_char.
Definition upper : string → string := str_map upper_char.

(** [str.isspace] on one character (code points below 256). *)
Definition is_space (c : ascii) : bool :=
  let n := nat_of_ascii c in
  (((9 <=? n) && (n <=? 13)) || ((28 <=? n) && (n <=? 32))
   || (n =? 133) || (n =? 160))%nat.

Fixpoint lstrip (s : string) : string :=
  match s with
  | "" => ""
  | String c s' => if is_space c then lstrip s' else s
  end.

Fixpoint rstrip (s : string) : string :=
  match s with
  | "" => ""
  | String c s' =>
      match rstrip s' with
      | "" => if is_space c then "" else String c ""
      | r => String c r
      end
  end.

(** [s.strip()] *)
Definition strip (s : string) : string := rstrip (lstrip s).

(** [s.split('\n')] *)
Fixpoint split_nl (s : string) : list string :=
  match s with
  | "" => [""]
  | String c s' =>
      if Ascii.eqb c "010" then "" :: split_nl s'
      else match split_nl s' with
           | [] => [String c ""]
           | p :: ps => String c p :: ps
           end
  end.

(** The maximal runs of non-whitespace characters of [s], in order. *)
Fixpoint split_ws_go (cur : string) (s : string) : list string :=
  match s with
  | "" => if String.eqb cur "" then [] else [cur]
  | String c s' =>
      if is_space c
      then (if String.eqb cur "" then [] else [cur]) ++ split_ws_go "" s'
      else split_ws_go (cur +:+ String c "") s'
  end.

Definition split_ws : string → list string := split_ws_go "".

(** [s * n] *)
Fixpoint str_repeat (s : string) (n : nat) : string :=
  match n with
  | O => ""
  | S n' => s +:+ str_repeat s n'
  end.

(** Truthiness of a [str]. *)
Definition truthy (s : string) : bool := negb (String.eqb s "").

End Py.

(** ** The parse tree of BeautifulSoup *)

(** A page element is a text node or a tag with its attributes and children.
    Tag names are lower case, as [html.parser] delivers them. Comments,
    doctypes and processing instructions are left out: [find_all] and
    [get_text] pass over them. *)
Unset Elimination Schemes.
Inductive node : Type :=
| NavigableString (text : string)
| Tag (name : string) (attrs : gmap string string) (contents : list node).
Set Elimination Schemes.

(** Induction on the parse tree, with the children of a tag as a list. *)

Section NodeInd.

Variable P : node → Prop.
Hypothesis P_string : ∀ s, P (NavigableString s).
Hypothesis P_tag : ∀ t a cs, Forall P cs → P (Tag t a cs).

Fixpoint node_ind (n : node) : P n :=
  match n with
  | NavigableString s => P_string s
  | Tag t a cs =>
      P_tag t a cs
        ((fix children (l : list node) : Forall P l :=
            match l with
            | [] => List.Forall_nil P
            | c :: l' => List.Forall_cons P c l' (node_ind c) (children l')
            end) cs)
  end.

End NodeInd.

(** The [BeautifulSoup] object: the top-level elements of the document. *)
Definition BeautifulSoup : Type := list node.

Module Soup.

Definition contents (n : node) : list node :=
  match n with
  | NavigableString _ => []
  | Tag _ _ cs => cs
  end.

(** [tag.descendants]: every element below, in document order. *)
Fixpoint below (n : node) : list node :=
  match n with
  | NavigableString _ => []
  | Tag _ _ cs => flat_map (λ c, c :: below c) cs
  end.

Definition descendants (cs : list node) : list node :=
  flat_map (λ c, c :: below c) cs.

Definition has_name (names : list string) (n : node) : bool :=
  match n with
  | NavigableString _ => false
  | Tag t _ _ => existsb (String.eqb t) names
  end.

Definition attr (key : string) (n : node) : option string :=
  match n with
  | NavigableString _ => None
  | Tag _ a _ => a !! key
  end.

(** [find_all(names)] *)
Definition find_all (names : list string) (cs : list node) : list node :=
  List.filter (has_name names) (descendants cs).

(** [find_all(names, class_=f)]. The parser stores the [class] attribute as
    the list of its whitespace-separated values; the filter function is
    tried on each value, then on the values joined by one space, and on
    [None] when the attribute is absent. *)
Definition class_matches (f : option string → bool) (n : node) : bool :=
  match attr "class" n with
  | None => f None
  | Some v =>
      let classes := Py.split_ws v in
      existsb (λ c, f (Some c)) classes || f (Some (Py.join " " classes))
  end.

Definition find_all_class (names : list string) (f : option string → bool)
    (cs : list node) : list node :=
  List.filter (λ n, has_name names n && class_matches f n) (descendants cs).

(** [find_all(name, href=True)]: the attribute is present. *)
Definition find_all_href (names : list string) (cs : list node) : list node :=
  List.filter (λ n, has_name names n && bool_decide (is_Some (attr "href" n)))
    (descendants cs).

(** The text nodes below, in document order. *)
Definition strings (cs : list node) : list string :=
  omap (λ n, match n with NavigableString s => Some s | Tag _ _ _ => None end)
    (descendants cs).

(** [get_text(separator=sep, strip=True)]: every text node is stripped, the
    empty ones are skipped, the rest joined. *)
Definition stripped_strings (cs : list node) : list string :=
  List.filter Py.truthy (map Py.strip (strings cs)).

Definition get_text (sep : string) (cs : list node) : string :=
  Py.join sep (stripped_strings cs).

(** [for t in soup(names): t.extract()]: every tag with one of the names is
    detached from its parent, at every depth. *)
Fixpoint prune (names : list string) (n : node) : list node :=
  match n with
  | NavigableString _ => [n]
  | Tag t a cs =>
      if existsb (String.eqb t) names then []
      else [Tag t a (flat_map (prune names) cs)]
  end.

Definition extract_all (names : list string) (cs : list node) : list node :=
  flat_map (prune names) cs.

End Soup.

(** ** Content extraction (lines 89-120 of [search.py]) *)

Import Py Soup.

(** [text[:10000] + "..." if len(text) > 10000 else text] *)
Definition truncate (text : string) : string :=
  if 10000 <? len text then str_slice_to text 10000 +:+ "..." else text.

(** [lambda c: c and ('content' in c.lower() or 'article' in c.lower())] *)
Definition main_class (c : option string) : bool :=
  match c with
  | None => false
  | Some c =>
      truthy c && (contains "content" (lower c) || contains "article" (lower c))
  end.

Definition main_names : list string := ["article"; "main"; "div"].

Definition full_text (soup : BeautifulSoup) : string :=
  let text := get_text nl soup in
  truncate text.

Definition main_content (soup : BeautifulSoup) : string :=
  let main_elements := find_all_class main_names main_class soup in
  match main_elements with
  | _ :: _ =>
      let main_content :=
        join (nl +:+ nl) (map (λ elem, get_text nl (contents elem)) main_elements) in
      truncate main_content
  | [] => "Couldn't identify main content. Try using full_text extraction instead."
  end.

(** One entry of the heading outline: [f"{tag.upper()}: {text}"]. *)
Definition heading_entry (tag : string) (heading : node) : string :=
  upper tag +:+ ": " +:+ get_text "" (contents heading).

(** The list [headings] after the two nested loops. *)
Definition heading_entries (soup : BeautifulSoup) : list string :=
  fold_left
    (λ headings tag,
       fold_left (λ headings heading, headings ++ [heading_entry tag heading])
         (find_all [tag] soup) headings)
    ["h1"; "h2"; "h3"] [].

Definition headings (soup : BeautifulSoup) : string :=
  let headings := heading_entries soup in
  match headings with
  | _ :: _ => join nl headings
  | [] => "No headings found on the page."
  end.

(** One entry of the link list: [f"{text}: {href}"]. *)
Definition link_entry (link : node) : string :=
  let text :=
    let t := get_text "" (contents link) in
    if truthy t then t else "[No text]" in
  let href := default "" (attr "href" link) in
  text +:+ ": " +:+ href.

(** The list [links] after the loop. *)
Definition link_entries (soup : BeautifulSoup) : list string :=
  fold_left (λ links link, links ++ [link_entry link])
    (find_all_href ["a"] soup) [].

Definition links (soup : BeautifulSoup) : string :=
  let links := link_entries soup in
  match links with
  | _ :: _ => join nl (slice_to links 100)
  | [] => "No links found on the page."
  end.

Definition valid_extraction_types : list string :=
  ["full_text"; "main_content"; "headings"; "links"].

Definition invalid_extraction_type (extraction_type : string) : string :=
  "Invalid extraction_type: " +:+ extraction_type +:+
  ". Valid options are 'full_text', 'main_content', 'headings', or 'links'.".

(** The body of [fetch_and_parse_webpage] once the page is parsed: the
    [script] and [style] elements are removed, then the view is chosen. *)
Definition extract (parsed : BeautifulSoup) (extraction_type : string) : string :=
  let soup := extract_all ["script"; "style"] parsed in
  if String.eqb extraction_type "full_text" then full_text soup
  else if String.eqb extraction_type "main_content" then main_content soup
  else if String.eqb extraction_type "headings" then headings soup
  else if String.eqb extraction_type "links" then links soup
  else invalid_extraction_type extraction_type.

(** ** The search provider's answer *)

(** One organic result: a dictionary with the optional keys [title], [link]
    and [snippet]. *)
Abbreviation result := (gmap string string).

(** The dictionary [make_search_request] returns, read at its two keys: the
    provider's JSON body, or [{"error": str(e)}] built on an exception. *)
Record search_results : Type := SearchResults {
  error : option string;
  organic : option (list result)
}.

Inductive http_result (A : Type) : Type :=
| HttpOk (body : A)
| HttpError (e : string).
Arguments HttpOk {A} body.
Arguments HttpError {A} e.

(** [result.get(key, fallback)] *)
Definition get (r : result) (key fallback : string) : string :=
  default fallback (r !! key).

Definition format_search_result (r : result) : string :=
  let title := get r "title" "No title" in
  let link := get r "link" "No link" in
  let snippet := get r "snippet" "No description available" in
  nl +:+ "Title: " +:+ title +:+ nl +:+ "URL: " +:+ link +:+ nl +:+
  "Snippet: " +:+ snippet +:+ nl.

(** [enumerate(l)] *)
Definition enumerate {A} (l : list A) : list (nat * A) := imap pair l.

(** ** The report of [deep_research] (lines 136-190) *)

(** The three lines one result adds to the overview. *)
Definition overview_entry (i : nat) (r : result) : list string :=
  [ str_of_int (Z.of_nat i + 1) +:+ ". **" +:+ get r "title" "No title" +:+ "**";
    "   URL: " +:+ get r "link" "No link";
    "   Summary: " +:+ get r "snippet" "No description" +:+ nl ].

(** The outline of a source: headings longer than three characters. *)
Definition key_points (soup : BeautifulSoup) : list string :=
  fold_left
    (λ headings tag,
       fold_left
         (λ headings heading,
            let heading_text := get_text "" (contents heading) in
            if truthy heading_text && (3 <? len heading_text)
            then headings ++ ["- " +:+ heading_text]
            else headings)
         (find_all [tag] soup) headings)
    ["h1"; "h2"; "h3"] [].

Definition content_summary (soup : BeautifulSoup) : string :=
  let main_elements := find_all_class main_names main_class soup in
  match main_elements with
  | elem :: _ =>
      let main_text := get_text " " (contents elem) in
      let paragraphs := split_nl main_text in
      str_slice_to (join " " (slice_to paragraphs 3)) 500 +:+ "..."
  | [] =>
      let page_text := get_text " " soup in
      str_slice_to page_text 500 +:+ "..."
  end.

Definition footer (topic : string) (depth : Z) : string :=
  "This research explored " +:+ str_of_int depth +:+
  " sources on the topic '" +:+ topic +:+
  "'. To further explore this topic, consider reading the full content of the most relevant sources or refining your search terms.".

Section Tools.

(** [client.post(...)], [raise_for_status()] and [response.json()]. *)
Variable http_post : string → Z → http_result search_results.
(** [client.get(...)], [raise_for_status()] and [response.text]. *)
Variable http_get : string → http_result string.
(** [BeautifulSoup(html_content, 'html.parser')] *)
Variable html_parser : string → BeautifulSoup.

Definition make_search_request (query : string) (num_results : Z)
    : search_results :=
  match http_post query num_results with
  | HttpOk json => json
  | HttpError e => {| error := Some e; organic := None |}
  end.

Definition fetch_webpage_content (url : string) : string :=
  match http_get url with
  | HttpOk text => text
  | HttpError e => "Error fetching page: " +:+ e
  end.

Definition web_search (query : string) (num_results : Z) : string :=
  let search_results := make_search_request query num_results in
  match error search_results with
  | Some e => "Error performing search: " +:+ e
  | None =>
      match organic search_results with
      | None | Some [] => "No results found for your query."
      | Some rs =>
          let formatted_results :=
            map format_search_result (slice_to rs num_results) in
          join (nl +:+ "---" +:+ nl) formatted_results
      end
  end.

Definition fetch_and_parse_webpage (url extraction_type : string) : string :=
  let html_content := fetch_webpage_content url in
  if startswith html_content "Error" then html_content
  else extract (html_parser html_content) extraction_type.

(** One turn of the second loop: the lines source [i] adds to the report.
    The [continue] after a failed fetch ends the turn early. *)
Definition explore (research_report : list string) (ir : nat * result)
    : list string :=
  let '(i, r) := ir in
  let title := get r "title" "No title" in
  let url := get r "link" "No link" in
  let research_report :=
    research_report ++
      ["### Source " +:+ str_of_int (Z.of_nat i + 1) +:+ ": " +:+ title] in
  let research_report := research_report ++ ["URL: " +:+ url +:+ nl] in
  let html_content := fetch_webpage_content url in
  if startswith html_content "Error" then
    research_report ++ ["Could not access this page: " +:+ html_content +:+ nl]
  else
    let soup := extract_all ["script"; "style"] (html_parser html_content) in
    let research_report := research_report ++ ["#### Key Points:" +:+ nl] in
    let headings := key_points soup in
    let research_report :=
      match headings with
      | _ :: _ => (research_report ++ slice_to headings 10) ++ [""]
      | [] =>
          (research_report ++ ["- No clear headings found on this page."])
            ++ [""]
      end in
    let research_report := research_report ++ ["#### Summary of Content:" +:+ nl] in
    let research_report := research_report ++ [content_summary soup] in
    research_report ++ [nl +:+ "---" +:+ nl].

(** The list [research_report] when line 191 joins it. *)
Definition research_report (topic : string) (depth : Z) (rs : list result)
    : list string :=
  let report := ["# Deep Research: " +:+ topic +:+ nl] in
  let report := report ++ ["## Search Results Overview" +:+ nl] in
  let report :=
    fold_left (λ report ir, report ++ overview_entry ir.1 ir.2)
      (enumerate (slice_to rs (depth + 2))) report in
  let report := report ++ ["## Detailed Content Analysis" +:+ nl] in
  let report := fold_left explore (enumerate (slice_to rs depth)) report in
  let report := report ++ ["## Research Summary"] in
  report ++ [footer topic depth].

Definition deep_research (topic : string) (depth : Z) : string :=
  let search_results := make_search_request topic (depth + 2) in
  match error search_results with
  | Some e => "Error performing search: " +:+ e
  | None =>
      match organic search_results with
      | None | Some [] => "No results found for your topic."
      | Some rs => join nl (research_report topic depth rs)
      end
  end.

End Tools.

(** ** Notions the properties are stated with *)

(** [block] occurs in [l] as consecutive lines. *)
Definition has_block {A} (block l : list A) : Prop :=
  ∃ before after, l = before ++ block ++ after.

(** The level of a heading element. *)
Definition heading_tag (n : node) : option string :=
  match n with
  | NavigableString _ => None
  | Tag t _ _ =>
      if existsb (String.eqb t) ["h1"; "h2"; "h3"] then Some t else None
  end.

(** One entry per heading, in the order of the document. *)
Definition headings_in_document_order (soup : BeautifulSoup) : list string :=
  omap (λ n, (λ t, heading_entry t n) <$> heading_tag n) (descendants soup).

(** The entries of the headings of one level, in the order of the document. *)
Definition headings_of_level (t : string) (soup : BeautifulSoup) : list string :=
  omap (λ n, if bool_decide (heading_tag n = Some t)
             then Some (heading_entry t n) else None)
    (descendants soup).

(** Every text node with the names of the tags around it, innermost first. *)
Fixpoint strings_with_ancestors (ancestors : list string) (n : node)
    : list (list string * string) :=
  match n with
  | NavigableString s => [(ancestors, s)]
  | Tag t _ cs => flat_map (strings_with_ancestors (t :: ancestors)) cs
  end.

Definition inside (names : list string) (p : list string * string) : bool :=
  existsb (λ t, existsb (String.eqb t) names) p.1.

(** The text nodes of the document that lie in no element named in [names]. *)
Definition strings_outside (names : list string) (parsed : BeautifulSoup)
    : list string :=
  map snd
    (List.filter (λ p, negb (inside names p))
       (flat_map (strings_with_ancestors []) parsed)).

(** The outline lines of a fetched source, after the [Key Points] header. *)
Definition outline (soup : BeautifulSoup) : list string :=
  match key_points soup with
  | _ :: _ => slice_to (key_points soup) 10 ++ [""]
  | [] => ["- No clear headings found on this page."; ""]
  end.

(** The text a content summary is cut from: the first three lines of the
    first main element, or the text of the whole page. *)
Definition summary_source (soup : BeautifulSoup) : string :=
  match find_all_class main_names main_class soup with
  | elem :: _ => join " " (slice_to (split_nl (get_text " " (contents elem))) 3)
  | [] => get_text " " soup
  end.

Definition source_header (i : nat) (r : result) : list string :=
  [ "### Source " +:+ str_of_int (Z.of_nat i + 1) +:+ ": " +:+
      get r "title" "No title";
    "URL: " +:+ get r "link" "No link" +:+ nl ].

(** The outline lines of the headings of the page, in document order: one
    line ["- <text>"] per [h1], [h2] or [h3] element whose text is longer
    than three characters. *)
Definition long_heading_points (soup : BeautifulSoup) : list string :=
  omap (λ n, match heading_tag n with
             | Some _ =>
                 let text := get_text "" (contents n) in
                 if truthy text && (3 <? len text)
                 then Some ("- " +:+ text) else None
             | None => None
             end)
    (descendants soup).

(** [s] holds no newline character: [not ('\n' in s)]. *)
Definition newline_free (s : string) : bool := negb (contains nl s).

(** No element of the page carries the attribute [key]. *)
Definition attribute_free (key : string) (parsed : BeautifulSoup) : Prop :=
  Forall (λ n, attr key n = None) (descendants parsed).

(** ** Sample pages and provider answers *)

Module Sample.

(** [<h2>Beta</h2><h1>Alpha</h1>] *)
Definition h2_before_h1 : BeautifulSoup :=
  [ Tag "h2" ∅ [NavigableString "Beta"];
    Tag "h1" ∅ [NavigableString "Alpha"] ].

(** [<h1>Overview</h1><div class="content">Body text</div>] *)
Definition page : BeautifulSoup :=
  [ Tag "h1" ∅ [NavigableString "Overview"];
    Tag "div" {["class" := "content"]} [NavigableString "Body text"] ].

(** A page whose text is 10,001 characters long. *)
Definition long_page : BeautifulSoup :=
  [Tag "p" ∅ [NavigableString (str_repeat "a" (Z.to_nat 10001))]].

(** A page of 101 anchors. *)
Definition many_links : BeautifulSoup :=
  replicate 101 (Tag "a" {["href" := "/next"]} []).

(** [<p>seen</p><script>hidden()</script>] *)
Definition scripted : BeautifulSoup :=
  [ Tag "p" ∅ [NavigableString "seen"];
    Tag "script" ∅ [NavigableString "hidden()"] ].

Definition first : result := {["title" := "One"; "link" := "http://one"]}.
Definition second : result := {["title" := "Two"; "link" := "http://two"]}.

Definition markup : string :=
  "<h1>Overview</h1><div class='content'>Body text</div>".

(** The first source cannot be fetched, the second answers with a page. *)
Definition get_one_down (url : string) : http_result string :=
  if String.eqb url "http://one" then HttpError "timed out"
  else HttpOk markup.

(** Every source answers with a page. *)
Definition get_page (url : string) : http_result string := HttpOk markup.

(** A server whose page body reads [Error 404 ...]. *)
Definition get_error_body (url : string) : http_result string :=
  HttpOk "Error 404: this page does not exist".

Definition parser (html_content : string) : BeautifulSoup := page.

(** The provider answers with one result where three were asked for. *)
Definition post_one (query : string) (num : Z) : http_result search_results :=
  HttpOk {| error := None; organic := Some [first] |}.

(** A provider body that carries an [error] key and no [organic] key. *)
Definition post_error_key (query : string) (num : Z)
    : http_result search_results :=
  HttpOk {| error := Some "quota exceeded"; organic := None |}.

(** The first source cannot be fetched; the second answers, with a page
    whose text starts with [Error]. *)
Definition get_error_second (url : string) : http_result string :=
  if String.eqb url "http://one" then HttpError "timed out"
  else HttpOk "Error 500: <h1>Overview</h1>".


(** A result without a [link] key. *)
Definition unlinked : result := {["title" := "Three"]}.

(** A server that answers no request. *)
Definition get_down (url : string) : http_result string :=
  HttpError "connection refused".

(** The provider answers with two results. *)
Definition post_two (query : string) (num : Z) : http_result search_results :=
  HttpOk {| error := None; organic := Some [first; second] |}.

End Sample.

(** * Properties *)

(** ** Strings and slices *)

Section StringFacts.

Local Open Scope nat_scope.

Lemma length_append (a b : string) :
  String.length (a +:+ b) = String.length a + String.length b.
Proof. induction a as [|c a IH]; simpl; [done | by rewrite IH]. Qed.

Lemma length_str_take (n : nat) (s : string) :
  String.length (str_take n s) = n `min` String.length s.
Proof.
  revert s. induction n as [|n IH]; intros [|c s]; simpl; try done.
  by rewrite IH.
Qed.

Lemma str_take_all (n : nat) (s : string) :
  String.length s ≤ n → str_take n s = s.
Proof.
  revert s. induction n as [|n IH]; intros [|c s]; simpl; try done; try lia.
  intros Hle. f_equal. apply IH. lia.
Qed.

End StringFacts.

Lemma len_append (a b : string) : len (a +:+ b) = len a + len b.
Proof. unfold len. rewrite length_append. lia. Qed.

Lemma len_nonneg (s : string) : 0 ≤ len s.
Proof. unfold len. lia. Qed.

Lemma len_str_slice_to (s : string) (k : Z) :
  0 ≤ k → len (str_slice_to s k) = Z.min k (len s).
Proof.
  intros Hk. unfold str_slice_to, len.
  destruct (Z.leb_spec 0 k); [| lia].
  rewrite length_str_take. lia.
Qed.

Lemma str_slice_to_all (s : string) (k : Z) :
  len s ≤ k → str_slice_to s k = s.
Proof.
  intros Hk. pose proof (len_nonneg s) as Hs. unfold str_slice_to, len in *.
  destruct (Z.leb_spec 0 k); [| lia].
  apply str_take_all. lia.
Qed.

Lemma slice_to_nonneg {A} (l : list A) (k : Z) :
  0 ≤ k → slice_to l k = take (Z.to_nat k) l.
Proof. intros Hk. unfold slice_to. by destruct (Z.leb_spec 0 k); [| lia]. Qed.

Lemma length_slice_to {A} (l : list A) (k : Z) :
  0 ≤ k → Z.of_nat (length (slice_to l k)) = Z.min k (Z.of_nat (length l)).
Proof. intros Hk. rewrite slice_to_nonneg, length_take by done. lia. Qed.

(** ** Loops that append *)

Lemma fold_left_append {A B} (f : B → list A) (l : list B) (acc : list A) :
  fold_left (λ acc x, acc ++ f x) l acc = acc ++ flat_map f l.
Proof.
  revert acc. induction l as [|x l IH]; intros acc; simpl.
  - by rewrite app_nil_r.
  - by rewrite IH, app_assoc.
Qed.

Lemma fold_left_step_append {A B} (step : list A → B → list A) (l : list B)
    (acc : list A) :
  (∀ acc x, step acc x = acc ++ step [] x) →
  fold_left step l acc = acc ++ flat_map (step []) l.
Proof.
  intros Hstep. revert acc. induction l as [|x l IH]; intros acc; simpl.
  - by rewrite app_nil_r.
  - by rewrite IH, Hstep, app_assoc.
Qed.

Lemma fold_left_snoc {A B} (f : B → A) (l : list B) (acc : list A) :
  fold_left (λ acc x, acc ++ [f x]) l acc = acc ++ map f l.
Proof.
  revert acc. induction l as [|x l IH]; intros acc; simpl.
  - by rewrite app_nil_r.
  - by rewrite IH, <- app_assoc.
Qed.

Lemma has_block_intro {A} (before block after : list A) :
  has_block block (before ++ block ++ after).
Proof. by exists before, after. Qed.

Lemma has_block_concat {A} (ls : list (list A)) (i : nat) (block : list A) :
  ls !! i = Some block → has_block block (concat ls).
Proof.
  intros Hi. apply list_elem_of_split_length in Hi as (l1 & l2 & -> & _).
  rewrite concat_app. simpl. apply has_block_intro.
Qed.

Lemma has_block_frame {A} (before block l after : list A) :
  has_block block l → has_block block (before ++ l ++ after).
Proof.
  intros (b & a & ->). exists (before ++ b), (a ++ after).
  by rewrite <- !app_assoc.
Qed.

(** ** The heading outline *)

Lemma heading_tag_cases (n : node) (t : string) :
  heading_tag n = Some t → t = "h1" ∨ t = "h2" ∨ t = "h3".
Proof.
  destruct n as [s | t' a cs]; [done |]. unfold heading_tag. cbn [existsb].
  destruct (String.eqb_spec t' "h1") as [-> |];
    [intros [= <-]; auto |].
  destruct (String.eqb_spec t' "h2") as [-> |];
    [intros [= <-]; auto |].
  destruct (String.eqb_spec t' "h3") as [-> |];
    [intros [= <-]; auto |].
  done.
Qed.

Lemma has_name_heading_tag (t : string) (n : node) :
  existsb (String.eqb t) ["h1"; "h2"; "h3"] = true →
  has_name [t] n = bool_decide (heading_tag n = Some t).
Proof.
  intros Ht. destruct n as [s | t' a cs].
  - by rewrite bool_decide_eq_false_2.
  - unfold has_name, heading_tag. cbn [existsb]. rewrite orb_false_r.
    destruct (String.eqb_spec t' t) as [-> | Hne].
    + cbn [existsb] in Ht. rewrite Ht. by rewrite bool_decide_eq_true_2.
    + symmetry. apply bool_decide_eq_false_2.
      destruct (_ || _); congruence.
Qed.

Lemma find_all_level (t : string) (soup : BeautifulSoup) :
  existsb (String.eqb t) ["h1"; "h2"; "h3"] = true →
  map (heading_entry t) (find_all [t] soup) = headings_of_level t soup.
Proof.
  intros Ht. unfold find_all, headings_of_level.
  induction (descendants soup) as [|n l IH]; [done |].
  cbn [List.filter omap list_omap].
  rewrite (has_name_heading_tag t n Ht).
  destruct (bool_decide _); simpl; by rewrite IH.
Qed.

Lemma heading_entries_by_level (soup : BeautifulSoup) :
  heading_entries soup =
    headings_of_level "h1" soup ++ headings_of_level "h2" soup ++
    headings_of_level "h3" soup.
Proof.
  unfold heading_entries. cbn [fold_left].
  rewrite !fold_left_snoc, !find_all_level by done.
  by rewrite app_nil_l, <- app_assoc.
Qed.

Lemma level_entries_permutation (l : list node) :
  omap (λ n, (λ t, heading_entry t n) <$> heading_tag n) l ≡ₚ
    omap (λ n, if bool_decide (heading_tag n = Some "h1")
               then Some (heading_entry "h1" n) else None) l ++
    omap (λ n, if bool_decide (heading_tag n = Some "h2")
               then Some (heading_entry "h2" n) else None) l ++
    omap (λ n, if bool_decide (heading_tag n = Some "h3")
               then Some (heading_entry "h3" n) else None) l.
Proof.
  induction l as [|n l IH]; [done |].
  cbn [omap list_omap].
  destruct (heading_tag n) as [t |] eqn:Htag; cbn [fmap option_fmap option_map].
  - apply heading_tag_cases in Htag as Ht.
    destruct Ht as [-> | [-> | ->]];
      repeat (first [ rewrite bool_decide_eq_true_2 by done
                    | rewrite bool_decide_eq_false_2 by done ]).
    + rewrite <- app_comm_cons. by f_equiv.
    + rewrite <- app_comm_cons, <- Permutation_middle. by f_equiv.
    + rewrite app_assoc, <- Permutation_middle, <- app_assoc. by f_equiv.
  - by rewrite !bool_decide_eq_false_2 by done.
Qed.

Lemma omap_sublist {A B} (f g : A → option B) (l : list A) :
  (∀ x y, g x = Some y → f x = Some y) →
  omap g l `sublist_of` omap f l.
Proof.
  intros Hfg. induction l as [|x l IH]; [done |].
  cbn [omap list_omap]. destruct (g x) as [y |] eqn:Hg.
  - rewrite (Hfg _ _ Hg). by constructor.
  - destruct (f x); [by constructor | done].
Qed.

Lemma headings_of_level_sublist (t : string) (soup : BeautifulSoup) :
  headings_of_level t soup `sublist_of` headings_in_document_order soup.
Proof.
  apply omap_sublist. intros n y.
  case_bool_decide as Htag; [| done]. intros [= <-]. by rewrite Htag.
Qed.

(** C1, as stated, fails: on [<h2>Beta</h2><h1>Alpha</h1>] the entry of the
    [h1] heading comes first although the [h2] heading precedes it in the
    document, so the output is not in document order. *)
Lemma C1_document_order_fails :
  let soup := extract_all ["script"; "style"] Sample.h2_before_h1 in
  headings_in_document_order soup = ["H2: Beta"; "H1: Alpha"] ∧
  heading_entries soup = ["H1: Alpha"; "H2: Beta"] ∧
  extract Sample.h2_before_h1 "headings"
    ≠ join nl (headings_in_document_order soup).
Proof. repeat split. vm_compute. discriminate. Qed.

(** C1 (amended): for every page, the headings view emits one entry
    ["<TAG-UPPER>: <text>"] per [h1]/[h2]/[h3] element that is left once the
    script and style elements are removed, grouped by level: all [h1]
    entries, then all [h2], then all [h3], each group in document order.
    The entries are those of the document-order list, rearranged, and the
    output is the entries joined by newlines, or the sentinel when there is
    none. *)
Theorem C1_headings_grouped_by_level (parsed : BeautifulSoup) :
  let soup := extract_all ["script"; "style"] parsed in
  heading_entries soup =
    headings_of_level "h1" soup ++ headings_of_level "h2" soup ++
    headings_of_level "h3" soup
  ∧ Forall (λ t, headings_of_level t soup
                   `sublist_of` headings_in_document_order soup)
      ["h1"; "h2"; "h3"]
  ∧ heading_entries soup ≡ₚ headings_in_document_order soup
  ∧ extract parsed "headings" =
      match heading_entries soup with
      | [] => "No headings found on the page."
      | _ :: _ => join nl (heading_entries soup)
      end.
Proof.
  intros soup. split; [apply heading_entries_by_level |].
  split; [repeat constructor; apply headings_of_level_sublist |].
  split; [| done].
  rewrite heading_entries_by_level. symmetry.
  apply level_entries_permutation.
Qed.

(** ** Text outside script and style elements *)

Lemma strings_app (l1 l2 : list node) :
  strings (l1 ++ l2) = strings l1 ++ strings l2.
Proof. unfold strings, descendants. by rewrite flat_map_app, omap_app. Qed.

Lemma strings_cons_string (s : string) (l : list node) :
  strings (NavigableString s :: l) = s :: strings l.
Proof. done. Qed.

Lemma strings_cons_tag (t : string) (a : gmap string string)
    (cs l : list node) :
  strings (Tag t a cs :: l) = strings cs ++ strings l.
Proof.
  unfold strings, descendants. cbn [flat_map below].
  rewrite <- app_comm_cons. cbn [omap list_omap]. by rewrite omap_app.
Qed.

Lemma strings_flat_map (f : node → list node) (cs : list node) :
  strings (flat_map f cs) = flat_map (λ c, strings (f c)) cs.
Proof.
  induction cs as [|c cs IH]; [done |].
  cbn [flat_map]. by rewrite strings_app, IH.
Qed.

Lemma filter_flat_map {A B} (p : B → bool) (f : A → list B) (l : list A) :
  List.filter p (flat_map f l) = flat_map (λ x, List.filter p (f x)) l.
Proof.
  induction l as [|x l IH]; [done |].
  cbn [flat_map]. by rewrite List.filter_app, IH.
Qed.

Lemma map_flat_map {A B C} (g : B → C) (f : A → list B) (l : list A) :
  map g (flat_map f l) = flat_map (λ x, map g (f x)) l.
Proof.
  induction l as [|x l IH]; [done |].
  cbn [flat_map]. by rewrite map_app, IH.
Qed.

Lemma flat_map_ext_Forall {A B} (f g : A → list B) (l : list A) :
  Forall (λ x, f x = g x) l → flat_map f l = flat_map g l.
Proof. induction 1 as [|x l Hx _ IH]; [done |]. cbn. by rewrite Hx, IH. Qed.

Lemma strings_inside_hidden (names : list string) (n : node) :
  ∀ ancestors,
    existsb (λ t, existsb (String.eqb t) names) ancestors = true →
    List.filter (λ p, negb (inside names p))
      (strings_with_ancestors ancestors n) = [].
Proof.
  induction n as [s | t a cs IH] using node_ind; intros ancestors Hin.
  - cbn [strings_with_ancestors List.filter]. unfold inside. cbn [fst].
    by rewrite Hin.
  - cbn [strings_with_ancestors]. rewrite filter_flat_map.
    induction IH as [|c cs Hc _ IHcs]; [done |].
    cbn [flat_map]. rewrite IHcs, app_nil_r.
    apply Hc. cbn [existsb]. rewrite Hin. apply orb_true_r.
Qed.

Lemma strings_prune (names : list string) (n : node) :
  ∀ ancestors,
    existsb (λ t, existsb (String.eqb t) names) ancestors = false →
    strings (prune names n) =
      map snd (List.filter (λ p, negb (inside names p))
                 (strings_with_ancestors ancestors n)).
Proof.
  induction n as [s | t a cs IH] using node_ind; intros ancestors Hout.
  - cbn [prune strings_with_ancestors List.filter]. unfold inside. cbn [fst].
    by rewrite Hout.
  - cbn [prune strings_with_ancestors].
    destruct (existsb (String.eqb t) names) eqn:Ht.
    + rewrite filter_flat_map.
      assert (flat_map
                (λ c, List.filter (λ p, negb (inside names p))
                        (strings_with_ancestors (t :: ancestors) c)) cs
              = flat_map (λ _, []) cs) as ->.
      { apply flat_map_ext_Forall, Forall_forall. intros c _.
        apply strings_inside_hidden. cbn [existsb]. by rewrite Ht. }
      clear IH. induction cs as [|c cs IHcs]; [done | exact IHcs].
    + rewrite strings_cons_tag, app_nil_r, strings_flat_map.
      rewrite filter_flat_map, map_flat_map.
      apply flat_map_ext_Forall.
      eapply Forall_impl; [exact IH |]. intros c Hc. apply Hc.
      cbn [existsb]. by rewrite Ht, Hout.
Qed.

Lemma strings_extract_all (names : list string) (parsed : BeautifulSoup) :
  strings (extract_all names parsed) = strings_outside names parsed.
Proof.
  unfold extract_all, strings_outside.
  rewrite strings_flat_map, filter_flat_map, map_flat_map.
  apply flat_map_ext_Forall, Forall_forall. intros c _.
  by apply strings_prune.
Qed.

(** The enumeration with ancestors lists every text node once, in order. *)
Lemma strings_with_ancestors_all (n : node) :
  ∀ ancestors,
    map snd (strings_with_ancestors ancestors n) = strings [n].
Proof.
  induction n as [s | t a cs IH] using node_ind; intros ancestors; [done |].
  cbn [strings_with_ancestors].
  rewrite strings_cons_tag, app_nil_r, map_flat_map.
  induction IH as [|c cs Hc _ IHcs]; [done |].
  cbn [flat_map]. rewrite Hc, IHcs.
  change (c :: cs) with ([c] ++ cs). by rewrite strings_app.
Qed.

(** ** The views of [fetch_and_parse_webpage] *)

Lemma len_truncate (text : string) :
  len (truncate text) = if 10000 <? len text then 10003 else len text.
Proof.
  unfold truncate. destruct (Z.ltb_spec 10000 (len text)) as [Hlong | Hshort].
  - rewrite len_append, len_str_slice_to by lia.
    replace (len "...") with 3 by done. lia.
  - done.
Qed.

Lemma get_text_extract_all (sep : string) (names : list string)
    (parsed : BeautifulSoup) :
  get_text sep (extract_all names parsed) =
    join sep (List.filter truthy (map strip (strings_outside names parsed))).
Proof. unfold get_text, stripped_strings. by rewrite strings_extract_all. Qed.

(** C5: for every page, the full-text view is the text of the page cut to
    10,000 characters with the marker ["..."] appended exactly when the text
    is longer than that, so it has at most 10,003 characters; and the text
    is made of the text nodes that lie in no [script] or [style] element,
    stripped and joined by newlines. *)
Theorem C5_full_text_bounded (parsed : BeautifulSoup) :
  let text :=
    join nl (List.filter truthy
               (map strip (strings_outside ["script"; "style"] parsed))) in
  extract parsed "full_text" =
    (if 10000 <? len text then str_slice_to text 10000 +:+ "..." else text)
  ∧ len (extract parsed "full_text") =
      (if 10000 <? len text then 10003 else len text)
  ∧ len (extract parsed "full_text") ≤ 10003.
Proof.
  intros text.
  assert (extract parsed "full_text" = truncate text) as ->.
  { unfold extract, full_text. rewrite String.eqb_refl.
    by rewrite get_text_extract_all. }
  split; [done |]. rewrite len_truncate.
  split; [done |]. destruct (Z.ltb_spec 10000 (len text)); lia.
Qed.

Lemma contains_append_r (sub a b : string) :
  contains sub b = true → contains sub (a +:+ b) = true.
Proof.
  intros Hb. induction a as [|c a IH]; [done |].
  change (contains sub (String c a +:+ b))
    with (String.prefix sub (String c (a +:+ b)) || contains sub (a +:+ b)).
  rewrite IH. apply orb_true_r.
Qed.

Lemma extract_invalid (parsed : BeautifulSoup) (extraction_type : string) :
  extraction_type ∉ valid_extraction_types →
  extract parsed extraction_type = invalid_extraction_type extraction_type.
Proof.
  unfold valid_extraction_types. rewrite !not_elem_of_cons.
  intros (H1 & H2 & H3 & H4 & _). unfold extract.
  by rewrite !(proj2 (String.eqb_neq _ _)) by done.
Qed.

Lemma link_entries_map (soup : BeautifulSoup) :
  link_entries soup = map link_entry (find_all_href ["a"] soup).
Proof. unfold link_entries. by rewrite fold_left_snoc. Qed.

(** C8: for every page, the links view holds one entry
    ["<anchor text or [No text]>: <href>"] for each of the first 100 anchors
    that carry an [href], in document order; the anchors after the
    hundredth are dropped without notice, so the view never holds more
    than 100 entries. *)
Theorem C8_links_capped (parsed : BeautifulSoup) :
  let soup := extract_all ["script"; "style"] parsed in
  let anchors := find_all_href ["a"] soup in
  extract parsed "links" =
    match anchors with
    | [] => "No links found on the page."
    | _ :: _ => join nl (map link_entry (take 100 anchors))
    end
  ∧ length (map link_entry (take 100 anchors)) = (100 `min` length anchors)%nat
  ∧ (length (map link_entry (take 100 anchors)) ≤ 100)%nat
  ∧ Forall (λ link,
       has_name ["a"] link = true ∧
       ∃ href, attr "href" link = Some href ∧
         link_entry link =
           (if truthy (get_text "" (contents link))
            then get_text "" (contents link) else "[No text]")
           +:+ ": " +:+ href)
      anchors.
Proof.
  intros soup anchors. repeat split.
  - unfold extract. rewrite String.eqb_refl.
    rewrite !(proj2 (String.eqb_neq _ _)) by done.
    fold soup. unfold links. rewrite link_entries_map. fold anchors.
    destruct anchors as [|a l]; [done |].
    cbn [map]. rewrite slice_to_nonneg by lia.
    change (Z.to_nat 100) with 100%nat.
    by rewrite <- (firstn_map link_entry 100 (a :: l)).
  - by rewrite length_map, length_take.
  - rewrite length_map, length_take. lia.
  - apply Forall_forall. intros link Hin.
    apply list_elem_of_In, List.filter_In in Hin as [_ Hlink].
    apply andb_true_iff in Hlink as [Hname Hhref].
    apply bool_decide_eq_true in Hhref as [href Hhref].
    split; [done |]. exists href. split; [done |].
    unfold link_entry. by rewrite Hhref.
Qed.

(** ** The tools *)

Section ToolFacts.

Variable http_post : string → Z → http_result search_results.
Variable http_get : string → http_result string.
Variable html_parser : string → BeautifulSoup.

(** *** The report *)

Lemma flat_map_enumerate {A B} (f : nat * A → list B) (l : list A) :
  flat_map f (enumerate l) = concat (imap (λ i x, f (i, x)) l).
Proof.
  unfold enumerate.
  enough (∀ h : nat → nat,
    flat_map f (imap (λ i x, (h i, x)) l) =
      concat (imap (λ i x, f (h i, x)) l)) as H by exact (H id).
  induction l as [|x l IH]; intros h; [done |].
  cbn [imap flat_map concat]. f_equal. exact (IH (h ∘ S)).
Qed.

Lemma explore_app (report : list string) (ir : nat * result) :
  explore http_get html_parser report ir =
    report ++ explore http_get html_parser [] ir.
Proof.
  destruct ir as [i r]. unfold explore.
  destruct (startswith _ _); [by rewrite <- !app_assoc |].
  destruct (key_points _); by rewrite <- !app_assoc.
Qed.

Lemma explore_failed (i : nat) (r : result) :
  let html_content := fetch_webpage_content http_get (get r "link" "No link") in
  startswith html_content "Error" = true →
  explore http_get html_parser [] (i, r) =
    source_header i r ++ ["Could not access this page: " +:+ html_content +:+ nl].
Proof. intros html_content Hfail. unfold explore. fold html_content. by rewrite Hfail. Qed.

Lemma explore_fetched (i : nat) (r : result) :
  let html_content := fetch_webpage_content http_get (get r "link" "No link") in
  let soup := extract_all ["script"; "style"] (html_parser html_content) in
  startswith html_content "Error" = false →
  explore http_get html_parser [] (i, r) =
    source_header i r ++ ["#### Key Points:" +:+ nl] ++ outline soup ++
    ["#### Summary of Content:" +:+ nl; content_summary soup;
     nl +:+ "---" +:+ nl].
Proof.
  intros html_content soup Hok. unfold explore, outline.
  fold html_content. rewrite Hok. fold soup.
  destruct (key_points soup); by rewrite <- ?app_assoc.
Qed.

(** The sections of the report: the entries of the overview and the
    sections of the detailed analysis, one per result of each slice. *)
Lemma research_report_sections (topic : string) (depth : Z) (rs : list result) :
  research_report http_get html_parser topic depth rs =
    ["# Deep Research: " +:+ topic +:+ nl; "## Search Results Overview" +:+ nl]
    ++ concat (imap overview_entry (slice_to rs (depth + 2)))
    ++ ["## Detailed Content Analysis" +:+ nl]
    ++ concat (imap (λ i r, explore http_get html_parser [] (i, r))
                 (slice_to rs depth))
    ++ ["## Research Summary"; footer topic depth].
Proof.
  unfold research_report.
  rewrite (fold_left_step_append (explore http_get html_parser))
    by apply explore_app.
  rewrite (fold_left_append (λ ir, overview_entry ir.1 ir.2)).
  rewrite !flat_map_enumerate. cbn [fst snd].
  by rewrite <- !app_assoc.
Qed.

Lemma imap_lookup_Some {A B} (f : nat → A → B) (l : list A) (i : nat) (x : A) :
  l !! i = Some x → imap f l !! i = Some (f i x).
Proof. intros Hi. by rewrite list_lookup_imap, Hi. Qed.

Lemma slice_to_lookup {A} (l : list A) (k : Z) (i : nat) :
  Z.of_nat i < k → slice_to l k !! i = l !! i.
Proof.
  intros Hi. rewrite slice_to_nonneg by lia. apply lookup_take_lt. lia.
Qed.

Lemma section_in_report (topic : string) (depth : Z) (rs : list result)
    (i : nat) (r : result) :
  rs !! i = Some r → Z.of_nat i < depth →
  has_block (explore http_get html_parser [] (i, r))
    (research_report http_get html_parser topic depth rs).
Proof.
  intros Hr Hi. rewrite research_report_sections.
  rewrite (app_assoc _ (concat _) _), (app_assoc _ [_]).
  apply has_block_frame. eapply has_block_concat.
  apply (imap_lookup_Some (λ i r, explore http_get html_parser [] (i, r))).
  by rewrite slice_to_lookup.
Qed.

Lemma fetch_failed (url reason : string) :
  http_get url = HttpError reason →
  fetch_webpage_content http_get url = "Error fetching page: " +:+ reason
  ∧ startswith (fetch_webpage_content http_get url) "Error" = true.
Proof. intros Hget. unfold fetch_webpage_content. by rewrite Hget. Qed.

Lemma fetch_ok (url body : string) :
  http_get url = HttpOk body → fetch_webpage_content http_get url = body.
Proof. intros Hget. unfold fetch_webpage_content. by rewrite Hget. Qed.

(** *** Fetch outcomes told apart by the prefix of the text *)

(** C9: a fetch counts as failed exactly when the text it returns starts
    with ["Error"]. So when the HTTP fetch of a URL succeeds with a body
    that itself starts with ["Error"], [fetch_and_parse_webpage] returns the
    body as it is, whatever the extraction type, and [deep_research] gives
    a source with that URL a [Could not access this page] line in place of
    its outline and summary. *)
Theorem C9_error_prefix_counts_as_failure (url body : string) :
  http_get url = HttpOk body → startswith body "Error" = true →
  (∀ extraction_type,
     fetch_and_parse_webpage http_get html_parser url extraction_type = body)
  ∧ (∀ report i r, get r "link" "No link" = url →
       explore http_get html_parser report (i, r) =
         report ++ source_header i r ++
         ["Could not access this page: " +:+ body +:+ nl])
  ∧ (∀ topic depth rs i r,
       rs !! i = Some r → Z.of_nat i < depth → get r "link" "No link" = url →
       has_block
         (source_header i r ++ ["Could not access this page: " +:+ body +:+ nl])
         (research_report http_get html_parser topic depth rs)).
Proof.
  intros Hget Hprefix. pose proof (fetch_ok _ _ Hget) as Hcontent.
  assert (∀ i r, get r "link" "No link" = url →
            explore http_get html_parser [] (i, r) =
              source_header i r ++
              ["Could not access this page: " +:+ body +:+ nl]) as Hsection.
  { intros i r Hlink. rewrite explore_failed; rewrite Hlink, Hcontent; done. }
  split; [| split].
  - intros extraction_type. unfold fetch_and_parse_webpage.
    by rewrite Hcontent, Hprefix.
  - intros report i r Hlink. by rewrite explore_app, Hsection.
  - intros topic depth rs i r Hr Hi Hlink. rewrite <- Hsection by done.
    by apply section_in_report.
Qed.

(** *** The content summary *)

Lemma content_summary_source (soup : BeautifulSoup) :
  content_summary soup = str_slice_to (summary_source soup) 500 +:+ "...".
Proof.
  unfold content_summary, summary_source. by destruct (find_all_class _ _ _).
Qed.

(** C10: in the section of every source that was fetched, the line after
    the [Summary of Content] header is the source text cut to 500
    characters followed by the marker ["..."]: it always ends with the
    marker and has at most 503 characters, and the marker is there also
    when the text is shorter than 500 characters, an empty page giving the
    marker alone. *)
Theorem C10_summary_always_marked (report : list string) (i : nat)
    (r : result) (markup : string) :
  http_get (get r "link" "No link") = HttpOk markup →
  startswith markup "Error" = false →
  let soup := extract_all ["script"; "style"] (html_parser markup) in
  let summary := content_summary soup in
  (∃ before,
     explore http_get html_parser report (i, r) =
       before ++ ["#### Summary of Content:" +:+ nl; summary;
                  nl +:+ "---" +:+ nl])
  ∧ summary = str_slice_to (summary_source soup) 500 +:+ "..."
  ∧ (len (summary_source soup) ≤ 500 → summary = summary_source soup +:+ "...")
  ∧ endswith summary "..."
  ∧ len summary ≤ 503
  ∧ content_summary [] = "...".
Proof.
  intros Hget Hmarkup soup summary.
  pose proof (fetch_ok _ _ Hget) as Hcontent.
  split; [| split; [| split; [| split; [| split]]]].
  - rewrite explore_app, explore_fetched by (by rewrite Hcontent).
    rewrite Hcontent. fold soup summary.
    exists (report ++ source_header i r ++ ["#### Key Points:" +:+ nl]
              ++ outline soup).
    by rewrite <- !app_assoc.
  - apply content_summary_source.
  - intros Hshort. unfold summary.
    by rewrite content_summary_source, str_slice_to_all.
  - eexists. apply content_summary_source.
  - unfold summary. rewrite content_summary_source, len_append.
    rewrite len_str_slice_to by lia.
    replace (len "...") with 3 by done. lia.
  - done.
Qed.

(** *** Search errors and empty answers *)

Lemma prefix_append (p s : string) : String.prefix p (p +:+ s) = true.
Proof.
  induction p as [|c p IH]; [by destruct s |].
  change (String.prefix (String c p) (String c (p +:+ s)) = true).
  cbn [String.prefix]. destruct (ascii_dec c c) as [_ | Hne]; [exact IH | done].
Qed.

Lemma append_assoc (a b c : string) : (a +:+ b) +:+ c = a +:+ b +:+ c.
Proof.
  induction a as [|x a IH]; [done |].
  change (String x ((a +:+ b) +:+ c) = String x (a +:+ b +:+ c)).
  by f_equal.
Qed.

Lemma join_cons_cons (sep x y : string) (l : list string) :
  join sep (x :: y :: l) = x +:+ sep +:+ join sep (y :: l).
Proof. done. Qed.

Lemma report_starts_with_title (topic : string) (depth : Z) (rs : list result) :
  startswith (join nl (research_report http_get html_parser topic depth rs))
    "# Deep Research: " = true.
Proof.
  rewrite research_report_sections. unfold startswith.
  cbn [app]. rewrite join_cons_cons, !append_assoc.
  apply prefix_append.
Qed.

Lemma report_ends_with_footer (topic : string) (depth : Z) (rs : list result) :
  ∃ lines, research_report http_get html_parser topic depth rs =
             lines ++ [footer topic depth].
Proof.
  unfold research_report. eexists. reflexivity.
Qed.

(** C6 (amended): for every query, an answer of the search request that
    carries no [error] key and lacks the [organic] key, or carries an empty
    [organic] list, makes [web_search] return its no-results message and
    [deep_research] its own; an answer that carries an [error] key, which
    is what a transport error is turned into, makes both return the single
    line [Error performing search: <error>], which differs from both
    no-results messages; and in every other case [deep_research] returns a
    report that begins with its title line. *)
Theorem C6_no_results_or_error (query topic : string) (num_results depth : Z) :
  let found := make_search_request http_post query num_results in
  let answer := make_search_request http_post topic (depth + 2) in
  (∀ e, http_post query num_results = HttpError e → error found = Some e)
  ∧ (∀ e, error found = Some e →
       web_search http_post query num_results
         = "Error performing search: " +:+ e)
  ∧ (∀ e, error answer = Some e →
       deep_research http_post http_get html_parser topic depth
         = "Error performing search: " +:+ e)
  ∧ (error found = None → organic found = None ∨ organic found = Some [] →
       web_search http_post query num_results
         = "No results found for your query.")
  ∧ (error answer = None → organic answer = None ∨ organic answer = Some [] →
       deep_research http_post http_get html_parser topic depth
         = "No results found for your topic.")
  ∧ (∀ e, "Error performing search: " +:+ e ≠ "No results found for your query."
          ∧ "Error performing search: " +:+ e ≠ "No results found for your topic.")
  ∧ ((∃ e, error answer = Some e)
     ∨ (error answer = None
        ∧ (organic answer = None ∨ organic answer = Some []))
     ∨ (∃ rs, error answer = None ∧ organic answer = Some rs ∧ rs ≠ []
          ∧ deep_research http_post http_get html_parser topic depth
              = join nl (research_report http_get html_parser topic depth rs)
          ∧ startswith
              (deep_research http_post http_get html_parser topic depth)
              "# Deep Research: " = true)).
Proof.
  intros found answer.
  split; [| split; [| split; [| split; [| split; [| split]]]]].
  - intros e Hpost. unfold found, make_search_request. by rewrite Hpost.
  - intros e He. unfold web_search. fold found. by rewrite He.
  - intros e He. unfold deep_research. fold answer. by rewrite He.
  - intros He Horganic. unfold web_search. fold found. rewrite He.
    by destruct Horganic as [-> | ->].
  - intros He Horganic. unfold deep_research. fold answer. rewrite He.
    by destruct Horganic as [-> | ->].
  - intros e. split; intros Heq; apply (f_equal (λ s, String.get 0 s)) in Heq;
      discriminate Heq.
  - destruct (error answer) as [e |] eqn:He; [left; by exists e | right].
    destruct (organic answer) as [[| r rs] |] eqn:Horganic;
      [left; auto | right | left; auto].
    exists (r :: rs).
    assert (deep_research http_post http_get html_parser topic depth
            = join nl (research_report http_get html_parser topic depth
                         (r :: rs))) as Hreport.
    { unfold deep_research. fold answer. by rewrite He, Horganic. }
    split; [reflexivity |]. split; [reflexivity |]. split; [discriminate |].
    split; [exact Hreport |].
    rewrite Hreport. apply report_starts_with_title.
Qed.

End ToolFacts.

(** ** The properties on sample inputs *)

Example full_text_truncates :
  len (get_text nl Sample.long_page) = 10001
  ∧ len (extract Sample.long_page "full_text") = 10003
  ∧ extract Sample.long_page "full_text"
      = str_repeat "a" (Z.to_nat 10000) +:+ "...".
Proof. split; [| split]; vm_compute; reflexivity. Qed.

Example full_text_skips_script :
  extract Sample.scripted "full_text" = "seen".
Proof. vm_compute; reflexivity. Qed.

Example links_keep_first_hundred :
  length (link_entries Sample.many_links) = 101%nat
  ∧ extract Sample.many_links "links"
      = join nl (replicate 100 "[No text]: /next").
Proof. split; vm_compute; reflexivity. Qed.

Example headings_none : extract Sample.scripted "headings"
  = "No headings found on the page.".
Proof. vm_compute; reflexivity. Qed.

Example web_search_two_results :
  web_search Sample.post_two "rust ownership" 3
    = format_search_result Sample.first +:+ nl +:+ "---" +:+ nl +:+
      format_search_result Sample.second.
Proof. vm_compute; reflexivity. Qed.

(** C6, as stated, fails: a provider body that lacks the [organic] key but
    carries an [error] key is answered with the error line, not with the
    no-results message. *)
Lemma C6_error_key_is_not_no_results :
  Sample.post_error_key "rust ownership" 5
    = HttpOk {| error := Some "quota exceeded"; organic := None |}
  ∧ organic (make_search_request Sample.post_error_key "rust ownership" 5) = None
  ∧ web_search Sample.post_error_key "rust ownership" 5
      = "Error performing search: quota exceeded"
  ∧ web_search Sample.post_error_key "rust ownership" 5
      ≠ "No results found for your query."
  ∧ deep_research Sample.post_error_key Sample.get_page Sample.parser
      "rust ownership" 3
      ≠ "No results found for your topic.".
Proof.
  split; [| split; [| split; [| split]]]; vm_compute;
    first [reflexivity | discriminate].
Qed.

(** C2: with a depth of 2 and a provider that has one result, the report
    has one detailed section, and its closing line says that 2 sources were
    explored. *)
Lemma C2_footer_states_depth :
  let report :=
    research_report Sample.get_page Sample.parser "rocq" 2 [Sample.first] in
  deep_research Sample.post_one Sample.get_page Sample.parser "rocq" 2
    = join nl report
  ∧ List.filter (λ line, startswith line "### Source ") report
      = ["### Source 1: One"]
  ∧ last report =
      Some "This research explored 2 sources on the topic 'rocq'. To further explore this topic, consider reading the full content of the most relevant sources or refining your search terms.".
Proof. intros report. split; [| split]; vm_compute; reflexivity. Qed.

(** C9 on a server whose page body starts with [Error 404]. *)
Lemma C9_error_prefix_counts_as_failure_witness :
  Sample.get_error_body "http://one"
    = HttpOk "Error 404: this page does not exist"
  ∧ startswith "Error 404: this page does not exist" "Error" = true
  ∧ ∀ extraction_type,
      fetch_and_parse_webpage Sample.get_error_body Sample.parser
        "http://one" extraction_type
      = "Error 404: this page does not exist".
Proof.
  assert (Sample.get_error_body "http://one"
          = HttpOk "Error 404: this page does not exist") as Hget
    by reflexivity.
  assert (startswith "Error 404: this page does not exist" "Error" = true)
    as Hprefix by reflexivity.
  split; [exact Hget |]. split; [exact Hprefix |].
  exact (proj1
    (C9_error_prefix_counts_as_failure Sample.get_error_body Sample.parser
       "http://one" "Error 404: this page does not exist" Hget Hprefix)).
Defined.

(** C10 on a page whose main element holds two words. *)
Lemma C10_summary_always_marked_witness :
  Sample.get_page (get Sample.first "link" "No link") = HttpOk Sample.markup
  ∧ startswith Sample.markup "Error" = false
  ∧ endswith
      (content_summary
         (extract_all ["script"; "style"] (Sample.parser Sample.markup)))
      "...".
Proof.
  assert (Sample.get_page (get Sample.first "link" "No link")
          = HttpOk Sample.markup) as Hget by reflexivity.
  assert (startswith Sample.markup "Error" = false) as Hmarkup
    by (vm_compute; reflexivity).
  split; [exact Hget |]. split; [exact Hmarkup |].
  exact (proj1 (proj2 (proj2 (proj2
    (C10_summary_always_marked Sample.get_page Sample.parser [] 0
       Sample.first Sample.markup Hget Hmarkup))))).
Defined.

(** * Further properties of the tools *)

(** ** Removing script and style elements *)

Lemma descendants_app (l1 l2 : list node) :
  descendants (l1 ++ l2) = descendants l1 ++ descendants l2.
Proof. unfold descendants. apply flat_map_app. Qed.

Lemma descendants_cons (n : node) (l : list node) :
  descendants (n :: l) = n :: descendants (contents n) ++ descendants l.
Proof. by destruct n. Qed.

Lemma descendants_flat_map (f : node → list node) (cs : list node) :
  descendants (flat_map f cs) = flat_map (λ c, descendants (f c)) cs.
Proof.
  induction cs as [|c cs IH]; [done |].
  cbn [flat_map]. by rewrite descendants_app, IH.
Qed.

Lemma Forall_flat_map_intro {A B} (P : B → Prop) (f : A → list B) (l : list A) :
  Forall (λ x, Forall P (f x)) l → Forall P (flat_map f l).
Proof.
  induction 1 as [|x l Hx _ IH]; [constructor |].
  cbn [flat_map]. by apply Forall_app.
Qed.

Lemma prune_no_names (names : list string) (n : node) :
  Forall (λ d, has_name names d = false) (descendants (prune names n)).
Proof.
  induction n as [s | t a cs IH] using node_ind.
  - by repeat constructor.
  - cbn [prune]. destruct (existsb (String.eqb t) names) eqn:Ht; [constructor |].
    rewrite descendants_cons. cbn [contents descendants flat_map].
    rewrite app_nil_r. constructor; [exact Ht |].
    rewrite descendants_flat_map. by apply Forall_flat_map_intro.
Qed.

Lemma prune_prune (names : list string) (n : node) :
  flat_map (prune names) (prune names n) = prune names n.
Proof.
  induction n as [s | t a cs IH] using node_ind; [done |].
  cbn [prune]. destruct (existsb (String.eqb t) names) eqn:Ht; [done |].
  cbn [flat_map prune]. rewrite Ht, app_nil_r. do 2 f_equal.
  induction IH as [|c cs Hc _ IHcs]; [done |].
  cbn [flat_map]. by rewrite flat_map_app, Hc, IHcs.
Qed.

Lemma filter_none {A} (p : A → bool) (l : list A) :
  Forall (λ x, p x = false) l → List.filter p l = [].
Proof. induction 1 as [|x l Hx _ IH]; [done |]. cbn. by rewrite Hx. Qed.

(** X1: once the script and style elements are taken out, no element with
    one of these names is left at any depth, so a search for them finds
    nothing, and taking them out a second time changes nothing. *)
Theorem X1_script_and_style_removed (parsed : BeautifulSoup) :
  let soup := extract_all ["script"; "style"] parsed in
  find_all ["script"; "style"] soup = []
  ∧ find_all ["script"] soup = []
  ∧ find_all ["style"] soup = []
  ∧ extract_all ["script"; "style"] soup = soup.
Proof.
  intros soup.
  assert (Forall (λ d, has_name ["script"; "style"] d = false)
            (descendants soup)) as Hnone.
  { unfold soup, extract_all. rewrite descendants_flat_map.
    apply Forall_flat_map_intro, Forall_forall. intros c _.
    apply prune_no_names. }
  split; [by apply filter_none |].
  split; [| split].
  - apply filter_none. eapply Forall_impl; [exact Hnone |].
    intros [s | t a cs]; [done |]. cbn [has_name existsb].
    by intros [-> _]%orb_false_iff.
  - apply filter_none. eapply Forall_impl; [exact Hnone |].
    intros [s | t a cs]; [done |]. cbn [has_name existsb].
    intros [_ H]%orb_false_iff. exact H.
  - unfold soup, extract_all. clear soup Hnone.
    induction parsed as [|c cs IH]; [done |].
    cbn [flat_map]. by rewrite flat_map_app, prune_prune, IH.
Qed.

(** ** Views that are never empty *)

Lemma append_nonempty_r (a b : string) (c : ascii) : a +:+ String c b ≠ "".
Proof. by destruct a. Qed.

Lemma join_nonempty (sep x : string) (l : list string) :
  x ≠ "" → join sep (x :: l) ≠ "".
Proof. intros Hx. destruct l; [done |]. by destruct x. Qed.

Lemma Forall_map_intro {A B} (P : B → Prop) (f : A → B) (l : list A) :
  (∀ x, P (f x)) → Forall P (map f l).
Proof. intros Hf. induction l; by constructor. Qed.

Lemma heading_entry_nonempty (t : string) (n : node) : heading_entry t n ≠ "".
Proof. apply append_nonempty_r. Qed.

Lemma link_entry_nonempty (link : node) : link_entry link ≠ "".
Proof. apply append_nonempty_r. Qed.

Lemma heading_entries_nonempty (soup : BeautifulSoup) :
  Forall (λ e, e ≠ "") (heading_entries soup).
Proof.
  unfold heading_entries. cbn [fold_left]. rewrite !fold_left_snoc.
  repeat apply Forall_app_2; try constructor;
    apply Forall_map_intro, heading_entry_nonempty.
Qed.

(** X2: the headings view and the links view are never the empty string:
    they hold at least one non-empty entry or the sentence that says that
    nothing was found, so a caller can tell an empty page from a view that
    did not run. *)
Theorem X2_headings_and_links_never_empty (parsed : BeautifulSoup) :
  extract parsed "headings" ≠ "" ∧ extract parsed "links" ≠ "".
Proof.
  unfold extract. cbn [String.eqb Ascii.eqb Bool.eqb]. split.
  - unfold headings.
    pose proof (heading_entries_nonempty
                  (extract_all ["script"; "style"] parsed)) as Hentries.
    destruct (heading_entries _) as [|e es]; [done |].
    apply join_nonempty. by inversion Hentries.
  - unfold links. rewrite link_entries_map.
    destruct (find_all_href _ _) as [|a l]; [done |].
    cbn [map]. rewrite slice_to_nonneg by lia.
    change (Z.to_nat 100) with 100%nat. cbn [take].
    apply join_nonempty, link_entry_nonempty.
Qed.

(** ** The main-content view *)

(** X3: for every page, the main-content view has at most 10,003
    characters: it is the joined text of the main elements cut like the
    full text, or the sentence that asks for the full-text view. *)
Theorem X3_main_content_bounded (parsed : BeautifulSoup) :
  len (extract parsed "main_content") ≤ 10003.
Proof.
  unfold extract. cbn [String.eqb Ascii.eqb Bool.eqb]. unfold main_content.
  destruct (find_all_class _ _ _) as [|elem elems]; [by vm_compute |].
  rewrite len_truncate. destruct (Z.ltb_spec 10000 (len
    (join (nl +:+ nl)
       (map (λ elem, get_text nl (contents elem)) (elem :: elems))))); lia.
Qed.

Lemma prune_keeps (names : list string) (P : node → Prop) (n : node) :
  (∀ t a cs cs', P (Tag t a cs) → P (Tag t a cs')) →
  Forall P (descendants [n]) → Forall P (descendants (prune names n)).
Proof.
  intros Hattrs. induction n as [s | t a cs IH] using node_ind; [done |].
  rewrite descendants_cons. cbn [contents]. rewrite app_nil_r.
  intros [Htag Hbelow]%Forall_cons. cbn [prune].
  destruct (existsb (String.eqb t) names); [constructor |].
  rewrite descendants_cons. cbn [contents]. rewrite app_nil_r.
  constructor; [by eapply Hattrs |].
  rewrite descendants_flat_map. apply Forall_flat_map_intro. clear Htag.
  induction IH as [|c cs Hc _ IHcs]; [constructor |].
  change (c :: cs) with ([c] ++ cs) in Hbelow.
  rewrite descendants_app in Hbelow. apply Forall_app in Hbelow as [H1 H2].
  constructor; [by apply Hc | by apply IHcs].
Qed.

Lemma extract_all_keeps (names : list string) (P : node → Prop)
    (parsed : BeautifulSoup) :
  (∀ t a cs cs', P (Tag t a cs) → P (Tag t a cs')) →
  Forall P (descendants parsed) →
  Forall P (descendants (extract_all names parsed)).
Proof.
  intros Hattrs. unfold extract_all. rewrite descendants_flat_map.
  induction parsed as [|c cs IH]; [constructor |].
  change (c :: cs) with ([c] ++ cs).
  rewrite descendants_app. intros [H1 H2]%Forall_app.
  cbn [app flat_map]. apply Forall_app. split; [| by apply IH].
  by apply prune_keeps.
Qed.

(** X4: on a page where no element carries a [class] attribute, no element
    counts as main content: the main-content view is the sentence that
    asks for the full-text view, and the content summary of
    [deep_research] is cut from the text of the whole page. *)
Theorem X4_no_class_no_main_content (parsed : BeautifulSoup) :
  attribute_free "class" parsed →
  let soup := extract_all ["script"; "style"] parsed in
  find_all_class main_names main_class soup = []
  ∧ extract parsed "main_content"
      = "Couldn't identify main content. Try using full_text extraction instead."
  ∧ content_summary soup = str_slice_to (get_text " " soup) 500 +:+ "...".
Proof.
  intros Hfree soup.
  assert (find_all_class main_names main_class soup = []) as Hnone.
  { apply filter_none.
    eapply Forall_impl;
      [apply (extract_all_keeps _ (λ n, attr "class" n = None));
         [done | exact Hfree] |].
    intros n Hn. unfold class_matches. rewrite Hn. apply andb_false_r. }
  split; [exact Hnone |]. split.
  - unfold extract. cbn [String.eqb Ascii.eqb Bool.eqb].
    fold soup. unfold main_content. by rewrite Hnone.
  - unfold content_summary. by rewrite Hnone.
Qed.

(** ** Letter case in the class attribute *)

Lemma lower_char_idem (c : ascii) : lower_char (lower_char c) = lower_char c.
Proof. by destruct c as [[] [] [] [] [] [] [] []]. Qed.

Lemma is_space_lower_char (c : ascii) : is_space (lower_char c) = is_space c.
Proof. by destruct c as [[] [] [] [] [] [] [] []]. Qed.

Lemma lower_idem (s : string) : lower (lower s) = lower s.
Proof.
  induction s as [|c s IH]; [done |].
  change (String (lower_char (lower_char c)) (lower (lower s))
          = String (lower_char c) (lower s)).
  by rewrite lower_char_idem, IH.
Qed.

Lemma lower_append (a b : string) : lower (a +:+ b) = lower a +:+ lower b.
Proof.
  induction a as [|c a IH]; [done |].
  change (String (lower_char c) (lower (a +:+ b))
          = String (lower_char c) (lower a +:+ lower b)).
  by rewrite IH.
Qed.

Lemma eqb_empty_lower (s : string) : String.eqb (lower s) "" = String.eqb s "".
Proof. by destruct s. Qed.

Lemma main_class_lower (c : string) :
  main_class (Some (lower c)) = main_class (Some c).
Proof. unfold main_class, truthy. by rewrite eqb_empty_lower, lower_idem. Qed.

Lemma split_ws_go_lower (s : string) :
  ∀ cur, split_ws_go (lower cur) (lower s) = map lower (split_ws_go cur s).
Proof.
  induction s as [|c s IH]; intros cur.
  - cbn [lower str_map split_ws_go]. rewrite eqb_empty_lower.
    by destruct (String.eqb cur "").
  - change (lower (String c s)) with (String (lower_char c) (lower s)).
    cbn [split_ws_go]. rewrite is_space_lower_char, eqb_empty_lower.
    destruct (is_space c).
    + rewrite map_app, <- IH. by destruct (String.eqb cur "").
    + rewrite <- IH. by rewrite lower_append.
Qed.

Lemma split_ws_lower (v : string) :
  split_ws (lower v) = map lower (split_ws v).
Proof. exact (split_ws_go_lower v ""). Qed.

Lemma join_lower (l : list string) :
  join " " (map lower l) = lower (join " " l).
Proof.
  induction l as [|x l IH]; [done |].
  destruct l as [|y l]; [done |].
  change (lower x +:+ " " +:+ join " " (map lower (y :: l))
          = lower (x +:+ " " +:+ join " " (y :: l))).
  by rewrite IH, !lower_append.
Qed.

Lemma class_value_lower (v : string) :
  let matches v :=
    existsb (λ c, main_class (Some c)) (split_ws v)
    || main_class (Some (join " " (split_ws v))) in
  matches (lower v) = matches v.
Proof.
  intros matches. unfold matches.
  rewrite split_ws_lower, join_lower, main_class_lower. f_equal.
  induction (split_ws v) as [|c l IH]; [done |].
  cbn [map existsb]. by rewrite main_class_lower, IH.
Qed.

(** X5: the test for a main element ignores the letter case of the [class]
    attribute: two class values that are equal once put in lower case are
    accepted or refused alike, on one value and on a whole attribute. *)
Theorem X5_class_match_ignores_case (v v' : string) :
  lower v = lower v' →
  main_class (Some v) = main_class (Some v')
  ∧ ∀ t a cs,
      class_matches main_class (Tag t (<["class" := v]> a) cs)
      = class_matches main_class (Tag t (<["class" := v']> a) cs).
Proof.
  intros Hcase. split.
  - by rewrite <- (main_class_lower v), <- (main_class_lower v'), Hcase.
  - intros t a cs. unfold class_matches, attr.
    rewrite !lookup_insert_eq.
    pose proof (class_value_lower v) as Hv.
    pose proof (class_value_lower v') as Hv'.
    cbv zeta in Hv, Hv'. by rewrite <- Hv, <- Hv', Hcase.
Qed.

(** ** The outline of a source *)

Lemma fold_left_filter_snoc {A B} (p : B → bool) (g : B → A) (l : list B)
    (acc : list A) :
  fold_left (λ acc x, if p x then acc ++ [g x] else acc) l acc
  = acc ++ map g (List.filter p l).
Proof.
  revert acc. induction l as [|x l IH]; intros acc; cbn [fold_left List.filter].
  - by rewrite app_nil_r.
  - rewrite IH. destruct (p x); [| done]. by rewrite <- app_assoc.
Qed.

Lemma key_points_shape (soup : BeautifulSoup) :
  Forall (λ line, startswith line "- " = true ∧ 5 < len line) (key_points soup).
Proof.
  unfold key_points. cbn [fold_left].
  rewrite !(fold_left_filter_snoc
              (λ h, truthy (get_text "" (contents h))
                    && (3 <? len (get_text "" (contents h))))
              (λ h, "- " +:+ get_text "" (contents h))).
  assert (∀ l : list node,
    Forall (λ line, startswith line "- " = true ∧ 5 < len line)
      (map (λ h, "- " +:+ get_text "" (contents h))
         (List.filter
            (λ h, truthy (get_text "" (contents h))
                  && (3 <? len (get_text "" (contents h)))) l))) as Hlevel.
  { induction l as [|h l IH]; [constructor |]. cbn [List.filter].
    destruct (truthy _ && _) eqn:Hkeep; [| done].
    cbn [map]. constructor; [| done].
    apply andb_true_iff in Hkeep as [_ Hlong%Z.ltb_lt].
    split; [apply prefix_append |].
    rewrite len_append. replace (len "- ") with 2 by done. lia. }
  repeat apply Forall_app_2; try constructor; apply Hlevel.
Qed.

(** X6: the outline that [deep_research] prints for a fetched source is
    one to ten lines that each start with ["- "] and are longer than five
    characters (the headings of more than three characters, or the line
    that says that none was found), followed by one empty line. *)
Theorem X6_outline_shape (soup : BeautifulSoup) :
  let points :=
    match key_points soup with
    | [] => ["- No clear headings found on this page."]
    | _ :: _ => take 10 (key_points soup)
    end in
  outline soup = points ++ [""]
  ∧ (1 ≤ length points ≤ 10)%nat
  ∧ Forall (λ line, startswith line "- " = true ∧ 5 < len line) points.
Proof.
  intros points. unfold points, outline.
  pose proof (key_points_shape soup) as Hshape.
  destruct (key_points soup) as [|k ks]; [by repeat constructor |].
  rewrite slice_to_nonneg by lia. change (Z.to_nat 10) with 10%nat.
  split; [done |]. split.
  - rewrite length_take. cbn [length]. lia.
  - by apply Forall_take.
Qed.

(** ** The summary of a main element *)

Lemma contains_nl_cons (c : ascii) (s : string) :
  contains nl (String c s) = Ascii.eqb c "010" || contains nl s.
Proof.
  change (contains nl (String c s))
    with (String.prefix nl (String c s) || contains nl s).
  f_equal. unfold nl. cbn [String.prefix].
  destruct (ascii_dec "010" c) as [<- | Hne]; [by destruct s |].
  symmetry. apply Ascii.eqb_neq. congruence.
Qed.

Lemma newline_free_append (a b : string) :
  newline_free (a +:+ b) = newline_free a && newline_free b.
Proof.
  unfold newline_free. induction a as [|c a IH].
  - change ("" +:+ b) with b. by destruct (contains nl b).
  - change (String c a +:+ b) with (String c (a +:+ b)).
    rewrite !contains_nl_cons. destruct (Ascii.eqb c "010"); [done |].
    exact IH.
Qed.

Lemma newline_free_split_nl (s : string) :
  Forall (λ p, newline_free p = true) (split_nl s).
Proof.
  induction s as [|c s IH]; [by repeat constructor |].
  cbn [split_nl]. destruct (Ascii.eqb c "010") eqn:Hc; [by constructor |].
  destruct (split_nl s) as [|p ps]; inversion IH; subst.
  - repeat constructor. unfold newline_free.
    by rewrite contains_nl_cons, Hc.
  - constructor; [| done]. unfold newline_free in *.
    rewrite contains_nl_cons, Hc. done.
Qed.

Lemma newline_free_join (sep : string) (l : list string) :
  newline_free sep = true →
  Forall (λ p, newline_free p = true) l →
  newline_free (join sep l) = true.
Proof.
  intros Hsep. induction 1 as [|x l Hx Hl IH]; [done |].
  destruct l as [|y l]; [done |].
  change (newline_free (x +:+ sep +:+ join sep (y :: l)) = true).
  by rewrite !newline_free_append, Hx, Hsep, IH.
Qed.

Lemma newline_free_str_take (n : nat) (s : string) :
  newline_free s = true → newline_free (str_take n s) = true.
Proof.
  unfold newline_free. revert s.
  induction n as [|n IH]; intros [|c s]; try done.
  cbn [str_take]. rewrite !contains_nl_cons.
  destruct (Ascii.eqb c "010"); [done |]. apply IH.
Qed.

(** X7: when the page has a main element, the content summary of
    [deep_research] holds no newline: the line breaks of the element's
    text are replaced by spaces before the text is cut. *)
Theorem X7_main_summary_on_one_line (soup : BeautifulSoup) :
  find_all_class main_names main_class soup ≠ [] →
  newline_free (content_summary soup) = true.
Proof.
  intros Hmain. unfold content_summary.
  destruct (find_all_class _ _ _) as [|elem elems]; [done |].
  rewrite newline_free_append. apply andb_true_iff. split; [| done].
  unfold str_slice_to. cbn [Z.leb Z.compare].
  apply newline_free_str_take, newline_free_join; [done |].
  rewrite slice_to_nonneg by lia. apply Forall_take, newline_free_split_nl.
Qed.

(** ** The outline and the headings view *)

Lemma key_points_by_level (soup : BeautifulSoup) :
  let keep h :=
    truthy (get_text "" (contents h)) && (3 <? len (get_text "" (contents h))) in
  let point h := "- " +:+ get_text "" (contents h) in
  key_points soup =
    map point (List.filter keep (find_all ["h1"] soup))
    ++ map point (List.filter keep (find_all ["h2"] soup))
    ++ map point (List.filter keep (find_all ["h3"] soup)).
Proof.
  intros keep point. unfold key_points. cbn [fold_left].
  rewrite !(fold_left_filter_snoc keep point).
  by rewrite app_nil_l, <- app_assoc.
Qed.

Lemma heading_entries_find_all (soup : BeautifulSoup) :
  heading_entries soup =
    map (heading_entry "h1") (find_all ["h1"] soup)
    ++ map (heading_entry "h2") (find_all ["h2"] soup)
    ++ map (heading_entry "h3") (find_all ["h3"] soup).
Proof.
  unfold heading_entries. cbn [fold_left]. rewrite !fold_left_snoc.
  by rewrite app_nil_l, <- app_assoc.
Qed.

(** X8: the outline of [deep_research] lists at most as many headings as
    the headings view of the same page holds entries; when the headings
    view finds none, the outline is the line that says so. *)
Theorem X8_outline_within_headings (soup : BeautifulSoup) :
  (length (key_points soup) ≤ length (heading_entries soup))%nat
  ∧ (heading_entries soup = [] →
       outline soup = ["- No clear headings found on this page."; ""]).
Proof.
  assert (length (key_points soup) ≤ length (heading_entries soup))%nat
    as Hcount.
  { rewrite key_points_by_level, heading_entries_find_all.
    rewrite !length_app, !length_map.
    pose proof (List.filter_length_le
      (λ h, truthy (get_text "" (contents h))
            && (3 <? len (get_text "" (contents h)))) (find_all ["h1"] soup)).
    pose proof (List.filter_length_le
      (λ h, truthy (get_text "" (contents h))
            && (3 <? len (get_text "" (contents h)))) (find_all ["h2"] soup)).
    pose proof (List.filter_length_le
      (λ h, truthy (get_text "" (contents h))
            && (3 <? len (get_text "" (contents h)))) (find_all ["h3"] soup)).
    lia. }
  split; [exact Hcount |].
  intros Hnone. rewrite Hnone in Hcount. unfold outline.
  destruct (key_points soup); [done | cbn [length] in Hcount; lia].
Qed.

(** ** Edge cases of the tools *)

Section ToolEdges.

Variable http_post : string → Z → http_result search_results.
Variable http_get : string → http_result string.
Variable html_parser : string → BeautifulSoup.

(** X10: with [num_results = 0] and a provider that has results,
    [web_search] returns the empty string, not the no-results message. *)
Theorem X10_web_search_zero_results (query : string) (rs : list result) :
  rs ≠ [] →
  make_search_request http_post query 0
    = {| error := None; organic := Some rs |} →
  web_search http_post query 0 = ""
  ∧ web_search http_post query 0 ≠ "No results found for your query.".
Proof.
  intros Hrs Hanswer. unfold web_search. rewrite Hanswer. cbn [error organic].
  by destruct rs.
Qed.

(** X11: when the fetch of the page fails, [fetch_and_parse_webpage]
    returns the line [Error fetching page: <cause>] whatever the extraction
    type is, also for a type that is not valid: the type is only looked at
    once a page was fetched. *)
Theorem X11_fetch_failure_before_type (url cause : string) :
  http_get url = HttpError cause →
  ∀ extraction_type,
    fetch_and_parse_webpage http_get html_parser url extraction_type
      = "Error fetching page: " +:+ cause.
Proof.
  intros Hget extraction_type. unfold fetch_and_parse_webpage.
  destruct (fetch_failed http_get url cause Hget) as [Hcontent Hprefix].
  by rewrite Hprefix.
Qed.

Lemma length_slice_to_negative {A} (l : list A) (k : Z) :
  k < 0 →
  Z.of_nat (length (slice_to l k)) = Z.max 0 (Z.of_nat (length l) + k).
Proof.
  intros Hk. unfold slice_to. destruct (Z.leb_spec 0 k); [lia |].
  rewrite length_take. lia.
Qed.

(** X12: [deep_research] does not check its depth. With a depth of 0 it
    explores no source; with a negative depth the slice counts from the
    end, so it explores all results but the last [-depth], which can be
    more sources than the overview lists; the closing line prints the
    depth as it was given. *)
Theorem X12_depth_not_positive (topic : string) (depth : Z) (rs : list result) :
  depth ≤ 0 →
  let n := Z.of_nat (length rs) in
  let overview := imap overview_entry (slice_to rs (depth + 2)) in
  let sections :=
    imap (λ i r, explore http_get html_parser [] (i, r)) (slice_to rs depth) in
  research_report http_get html_parser topic depth rs =
    ["# Deep Research: " +:+ topic +:+ nl; "## Search Results Overview" +:+ nl]
    ++ concat overview
    ++ ["## Detailed Content Analysis" +:+ nl]
    ++ concat sections
    ++ ["## Research Summary"; footer topic depth]
  ∧ Z.of_nat (length sections)
      = (if depth =? 0 then 0 else Z.max 0 (n + depth))
  ∧ Z.of_nat (length overview)
      = (if 0 <=? depth + 2 then Z.min (depth + 2) n
         else Z.max 0 (n + depth + 2)).
Proof.
  intros Hdepth n overview sections.
  split; [apply research_report_sections |]. split.
  - unfold sections. rewrite length_imap.
    destruct (Z.eqb_spec depth 0) as [-> | Hne]; [done |].
    rewrite length_slice_to_negative by lia. done.
  - unfold overview. rewrite length_imap.
    destruct (Z.leb_spec 0 (depth + 2)).
    + by rewrite length_slice_to.
    + rewrite length_slice_to_negative by lia. unfold n. lia.
Qed.

(** X13: a result without a [link] key is explored all the same: the page
    that is fetched is the placeholder [No link], and when that fetch
    fails the section is the header with the placeholder and the line
    that cites the failure. *)
Theorem X13_missing_link_is_fetched (report : list string) (i : nat)
    (r : result) (cause : string) :
  r !! "link" = None →
  http_get "No link" = HttpError cause →
  explore http_get html_parser report (i, r) =
    report ++
    [ "### Source " +:+ str_of_int (Z.of_nat i + 1) +:+ ": " +:+
        get r "title" "No title";
      "URL: No link" +:+ nl;
      "Could not access this page: Error fetching page: " +:+ cause +:+ nl ].
Proof.
  intros Hlink Hget.
  assert (get r "link" "No link" = "No link") as Hurl
    by (unfold get; by rewrite Hlink).
  destruct (fetch_failed http_get "No link" cause Hget) as [Hcontent Hprefix].
  rewrite explore_app, explore_failed by (by rewrite Hurl).
  unfold source_header. by rewrite Hurl, Hcontent.
Qed.

Lemma startswith_nonempty (s p : string) :
  p ≠ "" → startswith s p = true → s ≠ "".
Proof. intros Hp Hs ->. by destruct p. Qed.

(** X14: [deep_research] never returns the empty string: it returns the
    error line, the no-results message, or a report that begins with its
    title. *)
Theorem X14_deep_research_never_empty (topic : string) (depth : Z) :
  deep_research http_post http_get html_parser topic depth ≠ "".
Proof.
  unfold deep_research.
  destruct (error _) as [e |]; [done |].
  destruct (organic _) as [[| r rs] |]; [done | | done].
  eapply startswith_nonempty; [| apply report_starts_with_title]. done.
Qed.

End ToolEdges.

(** ** The further properties on sample inputs *)

(** X4 on a page of one paragraph and one script. *)
Lemma X4_no_class_no_main_content_witness :
  attribute_free "class" Sample.scripted
  ∧ extract Sample.scripted "main_content"
      = "Couldn't identify main content. Try using full_text extraction instead.".
Proof.
  assert (attribute_free "class" Sample.scripted) as Hfree
    by (repeat constructor).
  split; [exact Hfree |].
  exact (proj1 (proj2 (X4_no_class_no_main_content Sample.scripted Hfree))).
Defined.

(** X5 on the class values [Main-CONTENT] and [main-content]. *)
Lemma X5_class_match_ignores_case_witness :
  lower "Main-CONTENT" = lower "main-content"
  ∧ main_class (Some "Main-CONTENT") = main_class (Some "main-content").
Proof.
  assert (lower "Main-CONTENT" = lower "main-content") as Hcase
    by reflexivity.
  split; [exact Hcase |].
  exact (proj1 (X5_class_match_ignores_case "Main-CONTENT" "main-content" Hcase)).
Defined.

(** X7 on a page with one main element. *)
Lemma X7_main_summary_on_one_line_witness :
  find_all_class main_names main_class Sample.page ≠ []
  ∧ newline_free (content_summary Sample.page) = true.
Proof.
  assert (find_all_class main_names main_class Sample.page ≠ []) as Hmain
    by (vm_compute; discriminate).
  split; [exact Hmain |].
  exact (X7_main_summary_on_one_line Sample.page Hmain).
Defined.

(** X10 on a provider with two results. *)
Lemma X10_web_search_zero_results_witness :
  [Sample.first; Sample.second] ≠ []
  ∧ make_search_request Sample.post_two "rust ownership" 0
      = {| error := None; organic := Some [Sample.first; Sample.second] |}
  ∧ web_search Sample.post_two "rust ownership" 0 = "".
Proof.
  assert ([Sample.first; Sample.second] ≠ []) as Hrs by discriminate.
  assert (make_search_request Sample.post_two "rust ownership" 0
          = {| error := None; organic := Some [Sample.first; Sample.second] |})
    as Hanswer by reflexivity.
  split; [exact Hrs |]. split; [exact Hanswer |].
  exact (proj1
    (X10_web_search_zero_results Sample.post_two "rust ownership"
       [Sample.first; Sample.second] Hrs Hanswer)).
Defined.

(** X11 on a server that is down and a type that is not valid. *)
Lemma X11_fetch_failure_before_type_witness :
  Sample.get_down "http://one" = HttpError "connection refused"
  ∧ fetch_and_parse_webpage Sample.get_down Sample.parser "http://one"
      "bogus_mode"
    = "Error fetching page: connection refused".
Proof.
  assert (Sample.get_down "http://one" = HttpError "connection refused")
    as Hget by reflexivity.
  split; [exact Hget |].
  exact (X11_fetch_failure_before_type Sample.get_down Sample.parser
           "http://one" "connection refused" Hget "bogus_mode").
Defined.

(** X12 on a depth of -1 and three results: two sources are explored and
    one is listed in the overview. *)
Lemma X12_depth_not_positive_witness :
  let rs := [Sample.first; Sample.second; Sample.first] in
  -1 ≤ 0
  ∧ Z.of_nat
      (length
         (imap (λ i r, explore Sample.get_page Sample.parser [] (i, r))
            (slice_to rs (-1)))) = 2
  ∧ Z.of_nat (length (imap overview_entry (slice_to rs (-1 + 2)))) = 1.
Proof.
  intros rs.
  assert (-1 ≤ 0) as Hdepth by lia.
  split; [exact Hdepth |].
  exact (proj2
    (X12_depth_not_positive Sample.get_page Sample.parser "rocq" (-1) rs
       Hdepth)).
Defined.

(** X13 on a result that has a title only and a server that is down. *)
Lemma X13_missing_link_is_fetched_witness :
  Sample.unlinked !! "link" = None
  ∧ Sample.get_down "No link" = HttpError "connection refused"
  ∧ explore Sample.get_down Sample.parser [] (0%nat, Sample.unlinked)
    = [ "### Source 1: Three"; "URL: No link" +:+ nl;
        "Could not access this page: Error fetching page: connection refused"
          +:+ nl ].
Proof.
  assert (Sample.unlinked !! "link" = None) as Hlink
    by (vm_compute; reflexivity).
  assert (Sample.get_down "No link" = HttpError "connection refused") as Hget
    by reflexivity.
  split; [exact Hlink |]. split; [exact Hget |].
  exact (X13_missing_link_is_fetched Sample.get_down Sample.parser [] 0
           Sample.unlinked "connection refused" Hlink Hget).
Defined.

(** * The tools from the provider answer to the text returned *)

Lemma has_block_elem {A} (block l : list A) (x : A) :
  has_block block l → x ∈ block → x ∈ l.
Proof. intros (before & after & ->) Hx. rewrite !elem_of_app. auto. Qed.

Lemma heading_levels_permutation {A} (G : node → option A) (l : list node) :
  omap (λ n, match heading_tag n with Some _ => G n | None => None end) l ≡ₚ
    omap (λ n, if bool_decide (heading_tag n = Some "h1") then G n else None) l
    ++ omap (λ n, if bool_decide (heading_tag n = Some "h2") then G n else None) l
    ++ omap (λ n, if bool_decide (heading_tag n = Some "h3") then G n else None) l.
Proof.
  induction l as [|n l IH]; [done |].
  cbn [omap list_omap].
  destruct (heading_tag n) as [t |] eqn:Htag.
  - apply heading_tag_cases in Htag as Ht.
    destruct Ht as [-> | [-> | ->]];
      repeat (first [ rewrite bool_decide_eq_true_2 by done
                    | rewrite bool_decide_eq_false_2 by done ]);
      destruct (G n) as [y |]; try exact IH.
    + rewrite <- app_comm_cons. by f_equiv.
    + rewrite <- app_comm_cons, <- Permutation_middle. by f_equiv.
    + rewrite app_assoc, <- Permutation_middle, <- app_assoc. by f_equiv.
  - by rewrite !bool_decide_eq_false_2 by done.
Qed.

Lemma filter_map_level {A} (t : string) (keep : node → bool) (point : node → A)
    (soup : BeautifulSoup) :
  existsb (String.eqb t) ["h1"; "h2"; "h3"] = true →
  map point (List.filter keep (find_all [t] soup)) =
    omap (λ n, if bool_decide (heading_tag n = Some t)
               then (if keep n then Some (point n) else None) else None)
      (descendants soup).
Proof.
  intros Ht. unfold find_all.
  induction (descendants soup) as [|n l IH]; [done |].
  cbn [List.filter omap list_omap].
  rewrite (has_name_heading_tag t n Ht).
  destruct (bool_decide _); [| exact IH].
  cbn [List.filter]. destruct (keep n); [| exact IH].
  cbn [map]. by rewrite IH.
Qed.

(** The outline of the code holds the lines of the long headings of the
    page, each once. *)
Lemma key_points_document (soup : BeautifulSoup) :
  key_points soup ≡ₚ long_heading_points soup.
Proof.
  pose proof (key_points_by_level soup) as Hlevels. cbv zeta in Hlevels.
  rewrite Hlevels, !filter_map_level by done.
  symmetry. unfold long_heading_points.
  apply (heading_levels_permutation
           (λ n, if truthy (get_text "" (contents n))
                    && (3 <? len (get_text "" (contents n)))
                 then Some ("- " +:+ get_text "" (contents n)) else None)).
Qed.


Section EndToEnd.

Variable http_post : string → Z → http_result search_results.
Variable http_get : string → http_result string.
Variable html_parser : string → BeautifulSoup.

Lemma deep_research_report (topic : string) (depth : Z) (rs : list result) :
  rs ≠ [] →
  make_search_request http_post topic (depth + 2)
    = {| error := None; organic := Some rs |} →
  deep_research http_post http_get html_parser topic depth
    = join nl (research_report http_get html_parser topic depth rs).
Proof.
  intros Hrs Hanswer. unfold deep_research. rewrite Hanswer.
  cbn [error organic]. by destruct rs.
Qed.



(** C4 (amended): in [deep_research], when the search answer has no [error]
    key, the fetch of one explored source fails and the fetch of another
    succeeds with a text that does not start with ["Error"], the section of
    the failing source is its two header lines and one [Could not access
    this page] line that cites the reason, and the section of the other
    source is there in full: its outline holds the lines of the headings
    of the page that are longer than three characters (all of them when
    there are at most ten), and its summary line is the text of the page
    cut to 500 characters. Both sections stand in the report that
    [deep_research] returns. *)
Theorem C4_failed_fetch_is_local (topic : string) (depth : Z)
    (rs : list result) (i j : nat) (ri rj : result) (reason markup : string) :
  rs !! i = Some ri → rs !! j = Some rj →
  Z.of_nat i < depth → Z.of_nat j < depth →
  http_get (get ri "link" "No link") = HttpError reason →
  http_get (get rj "link" "No link") = HttpOk markup →
  startswith markup "Error" = false →
  make_search_request http_post topic (depth + 2)
    = {| error := None; organic := Some rs |} →
  let report := research_report http_get html_parser topic depth rs in
  let soup := extract_all ["script"; "style"] (html_parser markup) in
  let failed :=
    [ "### Source " +:+ str_of_int (Z.of_nat i + 1) +:+ ": " +:+
        default "No title" (ri !! "title");
      "URL: " +:+ default "No link" (ri !! "link") +:+ nl;
      "Could not access this page: Error fetching page: " +:+ reason +:+ nl ] in
  let fetched :=
    [ "### Source " +:+ str_of_int (Z.of_nat j + 1) +:+ ": " +:+
        default "No title" (rj !! "title");
      "URL: " +:+ default "No link" (rj !! "link") +:+ nl;
      "#### Key Points:" +:+ nl ]
    ++ outline soup ++
    [ "#### Summary of Content:" +:+ nl;
      str_slice_to (summary_source soup) 500 +:+ "...";
      nl +:+ "---" +:+ nl ] in
  deep_research http_post http_get html_parser topic depth = join nl report
  ∧ explore http_get html_parser [] (i, ri) = failed
  ∧ explore http_get html_parser [] (j, rj) = fetched
  ∧ has_block failed report
  ∧ has_block fetched report
  ∧ key_points soup ≡ₚ long_heading_points soup
  ∧ ((length (long_heading_points soup) ≤ 10)%nat →
       ∀ line, line ∈ long_heading_points soup → line ∈ report)
  ∧ (long_heading_points soup = [] →
       "- No clear headings found on this page." ∈ report).
Proof.
  intros Hri Hrj Hi Hj Hfail Hok Hmarkup Hanswer report soup failed fetched.
  assert (explore http_get html_parser [] (i, ri) = failed) as Hfailed.
  { destruct (fetch_failed _ _ _ Hfail) as [Hcontent Hprefix].
    rewrite explore_failed by done. by rewrite Hcontent. }
  assert (explore http_get html_parser [] (j, rj) = fetched) as Hfetched.
  { pose proof (fetch_ok _ _ _ Hok) as Hcontent.
    rewrite explore_fetched by (by rewrite Hcontent).
    rewrite Hcontent. fold soup. by rewrite content_summary_source. }
  assert (has_block fetched report) as Hblock.
  { rewrite <- Hfetched. by apply section_in_report. }
  assert (∀ line, line ∈ outline soup → line ∈ report) as Houtline.
  { intros line Hline. apply (has_block_elem fetched); [exact Hblock |].
    unfold fetched. rewrite !elem_of_app. auto. }
  split; [| split; [| split; [| split; [| split; [| split; [| split]]]]]].
  - apply deep_research_report; [| exact Hanswer]. by intros ->.
  - exact Hfailed.
  - exact Hfetched.
  - rewrite <- Hfailed. by apply section_in_report.
  - exact Hblock.
  - apply key_points_document.
  - intros Hfew line Hline. apply Houtline.
    pose proof (key_points_document soup) as Hperm.
    rewrite <- Hperm in Hline. rewrite <- (Permutation_length Hperm) in Hfew.
    unfold outline. destruct (key_points soup) as [|k ks] eqn:Hpoints;
      [by apply elem_of_nil in Hline |].
    rewrite slice_to_nonneg by lia. change (Z.to_nat 10) with 10%nat.
    rewrite take_ge by done. rewrite elem_of_app. by left.
  - intros Hnone. apply Houtline.
    pose proof (key_points_document soup) as Hperm.
    rewrite Hnone in Hperm. apply Permutation_nil_r in Hperm.
    unfold outline. rewrite Hperm. apply list_elem_of_here.
Qed.

(** C7 (amended): for every page that is fetched with a text that does not
    start with ["Error"], and every [extraction_type] that is none of
    ["full_text"], ["main_content"], ["headings"], ["links"],
    [fetch_and_parse_webpage] returns the invalid-mode message, a string
    that names the four valid modes; the extraction returns this message
    on every parsed page. *)
Theorem C7_invalid_type_on_fetched_page (url markup extraction_type : string) :
  extraction_type ∉ ["full_text"; "main_content"; "headings"; "links"] →
  http_get url = HttpOk markup →
  startswith markup "Error" = false →
  let message :=
    "Invalid extraction_type: " +:+ extraction_type +:+
    ". Valid options are 'full_text', 'main_content', 'headings', or 'links'." in
  fetch_and_parse_webpage http_get html_parser url extraction_type = message
  ∧ Forall (λ mode, contains mode message = true)
      ["full_text"; "main_content"; "headings"; "links"]
  ∧ ∀ parsed, extract parsed extraction_type = message.
Proof.
  intros Hinvalid Hget Hmarkup message. split; [| split].
  - unfold fetch_and_parse_webpage.
    rewrite (fetch_ok _ _ _ Hget), Hmarkup. by apply extract_invalid.
  - repeat constructor; unfold message;
      do 2 apply contains_append_r; by vm_compute.
  - intros parsed. by apply extract_invalid.
Qed.

(** X9: when the search answer has no [error] key and a non-empty
    [organic] list, and [num_results] is not negative, [web_search]
    returns [min(num_results, n)] blocks joined by the [---] line; the
    i-th block is made from the i-th result of the provider and reads
    [Title:], [URL:] and [Snippet:] on three lines, with a placeholder for
    a key that the result lacks. *)
Theorem X9_web_search_blocks (query : string) (num_results : Z)
    (rs : list result) :
  0 ≤ num_results → rs ≠ [] →
  make_search_request http_post query num_results
    = {| error := None; organic := Some rs |} →
  ∃ blocks : list string,
    web_search http_post query num_results = join (nl +:+ "---" +:+ nl) blocks
    ∧ Z.of_nat (length blocks) = Z.min num_results (Z.of_nat (length rs))
    ∧ ∀ i r, rs !! i = Some r → Z.of_nat i < num_results →
        blocks !! i =
          Some (nl +:+ "Title: " +:+ default "No title" (r !! "title") +:+ nl
                +:+ "URL: " +:+ default "No link" (r !! "link") +:+ nl
                +:+ "Snippet: " +:+
                  default "No description available" (r !! "snippet") +:+ nl).
Proof.
  intros Hnum Hrs Hanswer.
  exists (map format_search_result (take (Z.to_nat num_results) rs)).
  split; [| split].
  - unfold web_search. rewrite Hanswer. cbn [error organic].
    destruct rs as [|r rs']; [done |]. by rewrite slice_to_nonneg.
  - rewrite length_map, length_take. lia.
  - intros i r Hr Hi.
    change (nl +:+ "Title: " +:+ default "No title" (r !! "title") +:+ nl
            +:+ "URL: " +:+ default "No link" (r !! "link") +:+ nl
            +:+ "Snippet: " +:+
              default "No description available" (r !! "snippet") +:+ nl)
      with (format_search_result r).
    apply (list_lookup_fmap_Some_2 format_search_result).
    rewrite lookup_take_lt by lia. exact Hr.
Qed.

End EndToEnd.

(** ** The amended properties on sample inputs *)



(** C4, as stated, fails: the first source times out and the fetch of the
    second succeeds, with a page whose text starts with [Error]; the
    report then holds no outline and no summary for the second source. *)
Lemma C4_error_body_loses_section :
  let report :=
    research_report Sample.get_error_second Sample.parser "rocq" 2
      [Sample.first; Sample.second] in
  Sample.get_error_second "http://one" = HttpError "timed out"
  ∧ Sample.get_error_second "http://two"
      = HttpOk "Error 500: <h1>Overview</h1>"
  ∧ deep_research Sample.post_two Sample.get_error_second Sample.parser
      "rocq" 2 = join nl report
  ∧ List.filter (λ line, startswith line "#### ") report = []
  ∧ explore Sample.get_error_second Sample.parser [] (1%nat, Sample.second)
    = [ "### Source 2: Two"; "URL: http://two" +:+ nl;
        "Could not access this page: Error 500: <h1>Overview</h1>" +:+ nl ].
Proof.
  intros report. split; [| split; [| split; [| split]]];
    vm_compute; reflexivity.
Qed.

(** C4 on two results: the first source times out, the second answers with
    a page that has the heading [Overview] and the main text [Body text]. *)
Lemma C4_failed_fetch_is_local_witness :
  let rs := [Sample.first; Sample.second] in
  let report := research_report Sample.get_one_down Sample.parser "rocq" 2 rs in
  Sample.get_one_down (get Sample.first "link" "No link") = HttpError "timed out"
  ∧ Sample.get_one_down (get Sample.second "link" "No link")
      = HttpOk Sample.markup
  ∧ startswith Sample.markup "Error" = false
  ∧ make_search_request Sample.post_two "rocq" (2 + 2)
      = {| error := None; organic := Some rs |}
  ∧ deep_research Sample.post_two Sample.get_one_down Sample.parser "rocq" 2
      = join nl report
  ∧ "- Overview" ∈ report.
Proof.
  intros rs report.
  assert (Sample.get_one_down (get Sample.first "link" "No link")
          = HttpError "timed out") as Hfail by (vm_compute; reflexivity).
  assert (Sample.get_one_down (get Sample.second "link" "No link")
          = HttpOk Sample.markup) as Hok by (vm_compute; reflexivity).
  assert (startswith Sample.markup "Error" = false) as Hmarkup
    by (vm_compute; reflexivity).
  assert (make_search_request Sample.post_two "rocq" (2 + 2)
          = {| error := None; organic := Some rs |}) as Hanswer
    by reflexivity.
  assert (rs !! 0%nat = Some Sample.first) as Hfirst by reflexivity.
  assert (rs !! 1%nat = Some Sample.second) as Hsecond by reflexivity.
  assert (Z.of_nat 0 < 2) as Hi by lia.
  assert (Z.of_nat 1 < 2) as Hj by lia.
  split; [exact Hfail |]. split; [exact Hok |]. split; [exact Hmarkup |].
  split; [exact Hanswer |].
  destruct (C4_failed_fetch_is_local Sample.post_two Sample.get_one_down
              Sample.parser "rocq" 2 rs 0 1 Sample.first Sample.second
              "timed out" Sample.markup Hfirst Hsecond Hi Hj Hfail Hok
              Hmarkup Hanswer)
    as (Hreport & _ & _ & _ & _ & _ & Hlines & _).
  split; [exact Hreport |].
  apply Hlines.
  - vm_compute. lia.
  - vm_compute. apply list_elem_of_here.
Defined.

(** C7, as stated, fails: a page that is fetched with a text that starts
    with [Error] is returned as it is, also for an extraction type that is
    not valid, and that text names none of the four modes. *)
Lemma C7_error_body_hides_invalid_type :
  Sample.get_error_body "http://one"
    = HttpOk "Error 404: this page does not exist"
  ∧ fetch_and_parse_webpage Sample.get_error_body Sample.parser "http://one"
      "bogus_mode"
    = "Error 404: this page does not exist"
  ∧ Forall
      (λ mode,
         contains mode
           (fetch_and_parse_webpage Sample.get_error_body Sample.parser
              "http://one" "bogus_mode") = false)
      ["full_text"; "main_content"; "headings"; "links"].
Proof.
  split; [| split]; [reflexivity | reflexivity |].
  repeat constructor; vm_compute; reflexivity.
Qed.

(** C7 on the extraction type [bogus_mode] and a page that is fetched. *)
Lemma C7_invalid_type_on_fetched_page_witness :
  ("bogus_mode" ∉ ["full_text"; "main_content"; "headings"; "links"])
  ∧ Sample.get_page "http://one" = HttpOk Sample.markup
  ∧ startswith Sample.markup "Error" = false
  ∧ fetch_and_parse_webpage Sample.get_page Sample.parser "http://one"
      "bogus_mode"
    = "Invalid extraction_type: bogus_mode. Valid options are 'full_text', 'main_content', 'headings', or 'links'.".
Proof.
  assert ("bogus_mode" ∉ ["full_text"; "main_content"; "headings"; "links"])
    as Hinvalid by (apply (bool_decide_unpack _); vm_compute; exact I).
  assert (Sample.get_page "http://one" = HttpOk Sample.markup) as Hget
    by reflexivity.
  assert (startswith Sample.markup "Error" = false) as Hmarkup
    by (vm_compute; reflexivity).
  split; [exact Hinvalid |]. split; [exact Hget |]. split; [exact Hmarkup |].
  exact (proj1
    (C7_invalid_type_on_fetched_page Sample.get_page Sample.parser
       "http://one" Sample.markup "bogus_mode" Hinvalid Hget Hmarkup)).
Defined.

(** X9 on a provider with two results, the second without a snippet, and a
    request for two. *)
Lemma X9_web_search_blocks_witness :
  0 ≤ 2 ∧ [Sample.first; Sample.second] ≠ []
  ∧ make_search_request Sample.post_two "rust ownership" 2
      = {| error := None; organic := Some [Sample.first; Sample.second] |}
  ∧ ∃ blocks : list string,
      web_search Sample.post_two "rust ownership" 2
        = join (nl +:+ "---" +:+ nl) blocks
      ∧ Z.of_nat (length blocks) = 2.
Proof.
  assert (0 ≤ 2) as Hnum by lia.
  assert ([Sample.first; Sample.second] ≠ []) as Hrs by discriminate.
  assert (make_search_request Sample.post_two "rust ownership" 2
          = {| error := None; organic := Some [Sample.first; Sample.second] |})
    as Hanswer by reflexivity.
  split; [exact Hnum |]. split; [exact Hrs |]. split; [exact Hanswer |].
  destruct (X9_web_search_blocks Sample.post_two "rust ownership" 2
              [Sample.first; Sample.second] Hnum Hrs Hanswer)
    as (blocks & Htext & Hcount & _).
  exists blocks. split; [exact Htext | exact Hcount].
Defined.
